(** * qaapi: a question-and-answer HTTP service over a relational store

  Shallow embedding of [testing.go] (package main) and verification of its
  CRUD contract.  The Go program is a thin mapping layer: a router, seven
  handlers and seven repository functions that call an object-relational
  mapper.

  What the program itself does is translated function by function: the
  repository layer, the handlers and the two routes of [main].  What it
  calls is modelled as far as the program depends on it:
  - [strings] and [strconv] on byte strings;
  - the store behind [DB], as the two tables the struct tags of [Question]
    and [Answer] declare: auto-increment primary keys of type [int], a
    foreign key from answers to questions that cascades on delete;
  - a fault oracle: any statement may fail with a connection error, and a
    statement that fails has no effect;
  - [encoding/json], from the parsed JSON value on;
  - [net/http], as the response a handler leaves behind.  The mux is not
    modelled: it only chooses between the two routes.
  Requests are served one after the other. *)

From Stdlib Require Import ZArith Ascii String.
From stdpp Require Import gmap strings list fin_maps.

Local Open Scope Z_scope.

(** ** Byte strings

  A Go [string] is a sequence of bytes; [string] (a list of 8-bit [ascii])
  is the same data. *)

Module Strings.

(** [s[n:]] for [n <= len(s)]. *)
Fixpoint slice_from (n : nat) (s : string) : string :=
  match n, s with
  | O, _ => s
  | S n', String _ r => slice_from n' r
  | S _, EmptyString => EmptyString
  end.

(** [s[:n]] for [n <= len(s)]. *)
Fixpoint slice_to (n : nat) (s : string) : string :=
  match n, s with
  | O, _ => EmptyString
  | S n', String c r => String c (slice_to n' r)
  | S _, EmptyString => EmptyString
  end.

(** [strings.HasPrefix]: [len(s) >= len(prefix) && s[:len(prefix)] == prefix]. *)
Definition HasPrefix (s prefix : string) : bool :=
  (String.length prefix <=? String.length s)%nat
  && String.eqb (slice_to (String.length prefix) s) prefix.

(** [strings.HasSuffix]:
    [len(s) >= len(suffix) && s[len(s)-len(suffix):] == suffix]. *)
Definition HasSuffix (s suffix : string) : bool :=
  (String.length suffix <=? String.length s)%nat
  && String.eqb (slice_from (String.length s - String.length suffix) s) suffix.

(** [strings.TrimPrefix]: [s] without the leading [prefix], or [s] itself. *)
Definition TrimPrefix (s prefix : string) : string :=
  if HasPrefix s prefix then slice_from (String.length prefix) s else s.

(** [strings.Split(s, sep)] for a one-byte separator, the only way the
    program calls it ([sep = "/"]): the pieces between the occurrences of
    the separator, one more than there are occurrences. *)
Fixpoint Split (s : string) (sep : ascii) : list string :=
  match s with
  | EmptyString => [EmptyString]
  | String c r =>
      if Ascii.eqb c sep then EmptyString :: Split r sep
      else match Split r sep with
           | p :: ps => String c p :: ps
           | [] => [String c EmptyString]
           end
  end.

End Strings.
Export Strings.

(** ** strconv: decimal integers

  [int] is 64 bits wide on the platforms the service is built for. *)

Module Strconv.

Definition minInt : Z := - 2 ^ 63.
Definition maxInt : Z := 2 ^ 63 - 1.

Definition byte_val (c : ascii) : Z := Z.of_N (N_of_ascii c).

(** [ch -= '0'; if ch > 9 { syntax error }]. *)
Definition digit_of (c : ascii) : option Z :=
  let v := byte_val c in
  if (48 <=? v) && (v <=? 57) then Some (v - 48) else None.

(** [n = n*10 + int(ch)] over the bytes of [s]. *)
Fixpoint parse_digits (s : string) (n : Z) : option Z :=
  match s with
  | EmptyString => Some n
  | String c r =>
      match digit_of c with
      | Some d => parse_digits r (n * 10 + d)
      | None => None
      end
  end.

(** [strconv.Atoi]: an optional sign, then one or more decimal digits; the
    value must fit [int].  [None] stands for a non-nil error (syntax or
    range). *)
Definition Atoi (s : string) : option Z :=
  match s with
  | EmptyString => None
  | String c r =>
      let neg := Ascii.eqb c "-" in
      let ds := if neg || Ascii.eqb c "+" then r else s in
      match ds with
      | EmptyString => None
      | _ =>
          match parse_digits ds 0 with
          | None => None
          | Some n =>
              let v := if neg then - n else n in
              if (minInt <=? v) && (v <=? maxInt) then Some v else None
          end
      end
  end.

Definition digit_char (d : Z) : ascii := ascii_of_N (Z.to_N (48 + d)).

(** Decimal digits of [n >= 0], most significant first, in front of [acc]. *)
Fixpoint digits_of (fuel : nat) (n : Z) (acc : string) : string :=
  match fuel with
  | O => acc
  | S fuel' =>
      let acc' := String (digit_char (n mod 10)) acc in
      if n <? 10 then acc' else digits_of fuel' (n / 10) acc'
  end.

(** [strconv.Itoa]: the decimal text of an id, as it appears in a JSON
    response and as a client puts it back into a path. *)
Definition Itoa (n : Z) : string :=
  if n <? 0
  then String "-" (digits_of (S (Z.to_nat (Z.log2 (- n)))) (- n) EmptyString)
  else digits_of (S (Z.to_nat (Z.log2 n))) n EmptyString.

End Strconv.
Export Strconv.


(** ** Models

    The two structs of the program.  [time.Time] is an instant counted from
    the zero time, so [0] is the zero value [time.Time{}]. *)

Module Answer.
Record t := mk {
  ID : Z;
  QuestionID : Z;
  UserID : string;
  Text : string;
  CreatedAt : Z
}.
(** [var a Answer]. *)
Definition zero : t := mk 0 0 EmptyString EmptyString 0.
End Answer.

Module Question.
Record t := mk {
  ID : Z;
  Text : string;
  CreatedAt : Z;
  Answers : list Answer.t
}.
(** [var q Question]. *)
Definition zero : t := mk 0 EmptyString 0 [].
End Question.

(** The keys [encoding/json] writes for a [Question]: the [answers] field is
    tagged [omitempty], so an empty collection is left out. *)
Definition Question_json_keys (q : Question.t) : list string :=
  ["id"; "text"; "created_at"]
  ++ (if Question.Answers q is [] then [] else ["answers"]).

(** ** The relational store

    One row per primary key.  [questions_id_seq] and [answers_id_seq] are
    the sequences behind the [autoIncrement] keys: the last value handed
    out. *)

Record QuestionRow := {
  q_text : string;
  q_created_at : Z
}.

Record AnswerRow := {
  a_question_id : Z;
  a_user_id : string;
  a_text : string;
  a_created_at : Z
}.

Record Store := {
  questions : gmap Z QuestionRow;
  answers : gmap Z AnswerRow;
  questions_id_seq : Z;
  answers_id_seq : Z
}.

(** The schema [AutoMigrate] creates, before any row is written. *)
Definition initial_store : Store :=
  {| questions := ∅; answers := ∅; questions_id_seq := 0; answers_id_seq := 0 |}.

(** What a request runs against: the store, the outcome of the statements
    still to come ([true]: the statement fails with a connection error and
    has no effect; no entry: it goes through) and the clock. *)
Record World := {
  store : Store;
  faults : list bool;
  now : Z
}.

(** Code that talks to [DB]: a state transformer on the world. *)
Definition DB (A : Type) : Type := World → A * World.

Definition ret {A} (x : A) : DB A := λ w, (x, w).

Definition bind {A B} (m : DB A) (k : A → DB B) : DB B :=
  λ w, let (a, w') := m w in k a w'.

Notation "'let*' x ':=' m 'in' k" := (bind m (λ x, k))
  (at level 10, x pattern, m at level 100, k at level 200).

Definition draw_fault : DB bool :=
  λ w, match faults w with
       | [] => (false, w)
       | b :: fs => (b, {| store := store w; faults := fs; now := now w |})
       end.

Definition get_store : DB Store := λ w, (store w, w).

Definition put_store (s : Store) : DB unit :=
  λ w, (tt, {| store := s; faults := faults w; now := now w |}).

Definition time_Now : DB Z := λ w, (now w, w).

(** ** gorm on this schema *)

Inductive GormError :=
  | ErrRecordNotFound
  | ErrConnection
  | ErrDuplicatedKey
  | ErrForeignKeyViolated
  | ErrSequenceLimit.

(** A Go [error]; [None] is [nil]. *)
Definition error : Type := option GormError.

(** The fields of [*gorm.DB] the program reads after a statement. *)
Record Result := {
  RowsAffected : Z;
  Error : error
}.

Definition failed (e : GormError) : Result :=
  {| RowsAffected := 0; Error := Some e |}.

Definition succeeded (n : Z) : Result :=
  {| RowsAffected := n; Error := None |}.

Definition scan_question (id : Z) (r : QuestionRow) : Question.t :=
  Question.mk id (q_text r) (q_created_at r) [].

Definition scan_answer (id : Z) (r : AnswerRow) : Answer.t :=
  Answer.mk id (a_question_id r) (a_user_id r) (a_text r) (a_created_at r).

(** [autoCreateTime]: a zero [CreatedAt] is set to the current time. *)
Definition auto_create_time (t created : Z) : Z :=
  if created =? 0 then t else created.

(** [DB.Create(q)] for a [*Question].  A zero [ID] is left to the sequence;
    a taken key is a unique violation.  The associations of [q] are not
    written: the program only creates questions whose [Answers] is nil. *)
Definition DB_Create_Question (q : Question.t) : DB (Question.t * Result) :=
  let* t := time_Now in
  let q := Question.mk (Question.ID q) (Question.Text q)
             (auto_create_time t (Question.CreatedAt q)) (Question.Answers q) in
  let row := {| q_text := Question.Text q; q_created_at := Question.CreatedAt q |} in
  let* down := draw_fault in
  if down then ret (q, failed ErrConnection) else
  let* s := get_store in
  if Question.ID q =? 0 then
    let id := questions_id_seq s + 1 in
    if maxInt <? id then ret (q, failed ErrSequenceLimit) else
    match questions s !! id with
    | Some _ =>
        let* _ := put_store {| questions := questions s; answers := answers s;
                          questions_id_seq := id;
                          answers_id_seq := answers_id_seq s |} in
        ret (q, failed ErrDuplicatedKey)
    | None =>
        let* _ := put_store {| questions := <[id := row]> (questions s);
                          answers := answers s;
                          questions_id_seq := id;
                          answers_id_seq := answers_id_seq s |} in
        ret (Question.mk id (Question.Text q) (Question.CreatedAt q)
               (Question.Answers q), succeeded 1)
    end
  else
    match questions s !! Question.ID q with
    | Some _ => ret (q, failed ErrDuplicatedKey)
    | None =>
        let* _ := put_store {| questions := <[Question.ID q := row]> (questions s);
                          answers := answers s;
                          questions_id_seq := questions_id_seq s;
                          answers_id_seq := answers_id_seq s |} in
        ret (q, succeeded 1)
    end.

(** [DB.Create(a)] for an [*Answer]; the foreign key of [question_id] is
    checked by the store. *)
Definition DB_Create_Answer (a : Answer.t) : DB (Answer.t * Result) :=
  let* t := time_Now in
  let a := Answer.mk (Answer.ID a) (Answer.QuestionID a) (Answer.UserID a)
             (Answer.Text a) (auto_create_time t (Answer.CreatedAt a)) in
  let row := {| a_question_id := Answer.QuestionID a;
                a_user_id := Answer.UserID a;
                a_text := Answer.Text a;
                a_created_at := Answer.CreatedAt a |} in
  let* down := draw_fault in
  if down then ret (a, failed ErrConnection) else
  let* s := get_store in
  if Answer.ID a =? 0 then
    let id := answers_id_seq s + 1 in
    if maxInt <? id then ret (a, failed ErrSequenceLimit) else
    let bumped := {| questions := questions s; answers := answers s;
                     questions_id_seq := questions_id_seq s;
                     answers_id_seq := id |} in
    match answers s !! id, questions s !! Answer.QuestionID a with
    | Some _, _ => let* _ := put_store bumped in ret (a, failed ErrDuplicatedKey)
    | None, None => let* _ := put_store bumped in ret (a, failed ErrForeignKeyViolated)
    | None, Some _ =>
        let* _ := put_store {| questions := questions s;
                          answers := <[id := row]> (answers s);
                          questions_id_seq := questions_id_seq s;
                          answers_id_seq := id |} in
        ret (Answer.mk id (Answer.QuestionID a) (Answer.UserID a)
               (Answer.Text a) (Answer.CreatedAt a), succeeded 1)
    end
  else
    match answers s !! Answer.ID a, questions s !! Answer.QuestionID a with
    | Some _, _ => ret (a, failed ErrDuplicatedKey)
    | None, None => ret (a, failed ErrForeignKeyViolated)
    | None, Some _ =>
        let* _ := put_store {| questions := questions s;
                          answers := <[Answer.ID a := row]> (answers s);
                          questions_id_seq := questions_id_seq s;
                          answers_id_seq := answers_id_seq s |} in
        ret (a, succeeded 1)
    end.

(** [DB.Find(&qs)]: every row of [questions], in the store's order; no
    association is loaded. *)
Definition DB_Find_Questions : DB (list Question.t * Result) :=
  let* down := draw_fault in
  if down then ret ([], failed ErrConnection) else
  let* s := get_store in
  let qs := (λ kv, scan_question kv.1 kv.2) <$> map_to_list (questions s) in
  ret (qs, succeeded (Z.of_nat (length qs))).

(** [DB.First(&q, id)]: the row with that primary key. *)
Definition DB_First_Question (id : Z) : DB (Question.t * Result) :=
  let* down := draw_fault in
  if down then ret (Question.zero, failed ErrConnection) else
  let* s := get_store in
  match questions s !! id with
  | None => ret (Question.zero, failed ErrRecordNotFound)
  | Some r => ret (scan_question id r, succeeded 1)
  end.

Definition answers_of (id : Z) (s : Store) : list Answer.t :=
  (λ kv, scan_answer kv.1 kv.2)
    <$> map_to_list (filter (λ kv, a_question_id kv.2 = id) (answers s)).

(** [DB.Preload("Answers").First(&q, id)]: the question, then a second
    statement for the answers whose [question_id] is its key. *)
Definition DB_Preload_Answers_First_Question (id : Z) : DB (Question.t * Result) :=
  let* (q, res) := DB_First_Question id in
  match Error res with
  | Some _ => ret (q, res)
  | None =>
      let* down := draw_fault in
      if down then ret (q, failed ErrConnection) else
      let* s := get_store in
      ret (Question.mk (Question.ID q) (Question.Text q) (Question.CreatedAt q)
             (answers_of id s), res)
  end.

(** [DB.First(&a, id)]. *)
Definition DB_First_Answer (id : Z) : DB (Answer.t * Result) :=
  let* down := draw_fault in
  if down then ret (Answer.zero, failed ErrConnection) else
  let* s := get_store in
  match answers s !! id with
  | None => ret (Answer.zero, failed ErrRecordNotFound)
  | Some r => ret (scan_answer id r, succeeded 1)
  end.

(** [DB.Delete(&Question{}, id)]: the row goes, and with it, by
    [OnDelete:CASCADE], every answer that references it.  [RowsAffected]
    counts the rows of [questions] only. *)
Definition DB_Delete_Question (id : Z) : DB Result :=
  let* down := draw_fault in
  if down then ret (failed ErrConnection) else
  let* s := get_store in
  match questions s !! id with
  | None => ret (succeeded 0)
  | Some _ =>
      let* _ := put_store {| questions := delete id (questions s);
                        answers := filter (λ kv, a_question_id kv.2 ≠ id) (answers s);
                        questions_id_seq := questions_id_seq s;
                        answers_id_seq := answers_id_seq s |} in
      ret (succeeded 1)
  end.

(** [DB.Delete(&Answer{}, id)]. *)
Definition DB_Delete_Answer (id : Z) : DB Result :=
  let* down := draw_fault in
  if down then ret (failed ErrConnection) else
  let* s := get_store in
  match answers s !! id with
  | None => ret (succeeded 0)
  | Some _ =>
      let* _ := put_store {| questions := questions s;
                        answers := delete id (answers s);
                        questions_id_seq := questions_id_seq s;
                        answers_id_seq := answers_id_seq s |} in
      ret (succeeded 1)
  end.

(** ** Repository layer *)

Definition CreateQuestion (q : Question.t) : DB (Question.t * error) :=
  let* (q, res) := DB_Create_Question q in
  ret (q, Error res).

Definition GetAllQuestions : DB (list Question.t * error) :=
  let* (qs, res) := DB_Find_Questions in
  ret (qs, Error res).

(** A Go result of a pointer and an error of which exactly one is non-nil:
    [return &v, nil] is [Ok v] and [return nil, err] is [Err err]. *)
Inductive result (T : Type) :=
  | Ok (v : T)
  | Err (err : GormError).
Arguments Ok {T} v.
Arguments Err {T} err.

Definition GetQuestionWithAnswers (id : Z) : DB (result Question.t) :=
  let* (q, res) := DB_Preload_Answers_First_Question id in
  match Error res with
  | Some err => ret (Err err)
  | None => ret (Ok q)
  end.

Definition DeleteQuestion (id : Z) : DB error :=
  let* res := DB_Delete_Question id in
  if RowsAffected res =? 0 then ret (Some ErrRecordNotFound)
  else ret (Error res).

Definition CreateAnswer (a : Answer.t) : DB (Answer.t * error) :=
  let* (_, res) := DB_First_Question (Answer.QuestionID a) in
  match Error res with
  | Some err => ret (a, Some err)
  | None =>
      let* (a, res) := DB_Create_Answer a in
      ret (a, Error res)
  end.

Definition GetAnswer (id : Z) : DB (result Answer.t) :=
  let* (a, res) := DB_First_Answer id in
  match Error res with
  | Some err => ret (Err err)
  | None => ret (Ok a)
  end.

Definition DeleteAnswer (id : Z) : DB error :=
  let* res := DB_Delete_Answer id in
  if RowsAffected res =? 0 then ret (Some ErrRecordNotFound)
  else ret (Error res).

(** ** Requests and responses *)

(** A JSON text, parsed; a number keeps its literal. *)
#[local] Unset Elimination Schemes.
Inductive json :=
  | JNull
  | JBool (b : bool)
  | JNumber (literal : string)
  | JString (s : string)
  | JArray (items : list json)
  | JObject (fields : list (string * json)).
#[local] Set Elimination Schemes.

(** [r.Method], [r.URL.Path] and what [r.Body] holds: [None] when it does
    not start with a JSON value (the decoder reports a syntax error or
    EOF). *)
Record Request := {
  Method : string;
  Path : string;
  Body : option json
}.

Inductive Payload :=
  | Empty
  | Message (text : string)
  | OneQuestion (q : Question.t)
  | Questions (qs : list Question.t)
  | OneAnswer (a : Answer.t).

(** What a handler leaves in its [http.ResponseWriter]. *)
Record Response := {
  status : Z;
  payload : Payload
}.

Definition MethodGet : string := "GET".
Definition MethodPost : string := "POST".
Definition MethodDelete : string := "DELETE".

Definition StatusOK : Z := 200.
Definition StatusCreated : Z := 201.
Definition StatusNoContent : Z := 204.
Definition StatusBadRequest : Z := 400.
Definition StatusNotFound : Z := 404.
Definition StatusMethodNotAllowed : Z := 405.
Definition StatusInternalServerError : Z := 500.

(** [http.Error(w, msg, code)]. *)
Definition http_Error (msg : string) (code : Z) : Response :=
  {| status := code; payload := Message msg |}.

(** [http.NotFound(w, r)]. *)
Definition http_NotFound : Response :=
  http_Error "404 page not found" StatusNotFound.

(** [json.NewEncoder(w).Encode(v)] with no status written before it. *)
Definition encoded (p : Payload) : Response :=
  {| status := StatusOK; payload := p |}.

(** *** Decoding a request body into a struct of strings *)

Definition is_byte (n : Z) (c : ascii) : bool := byte_val c =? n.

(** [encoding/json]'s [foldName] on the runes that can fold to an ASCII
    letter: the lower-case letters, U+017F (bytes C5 BF, folds to S) and
    U+212A (bytes E2 84 AA, folds to K).  Every other byte is kept, so a key
    folds to an ASCII name here exactly when it does in the library. *)
Fixpoint foldName (s : string) : string :=
  match s with
  | EmptyString => EmptyString
  | String c r =>
      let v := byte_val c in
      if (97 <=? v) && (v <=? 122)
      then String (ascii_of_N (Z.to_N (v - 32))) (foldName r)
      else
        match r with
        | String c1 r1 =>
            if is_byte 197 c && is_byte 191 c1 then String "S" (foldName r1)
            else
              match r1 with
              | String c2 r2 =>
                  if is_byte 226 c && is_byte 132 c1 && is_byte 170 c2
                  then String "K" (foldName r2)
                  else String c (foldName r)
              | EmptyString => String c (foldName r)
              end
        | EmptyString => String c (foldName r)
        end
  end.

(** The struct field a key of the object goes to: the one with that exact
    name, else the one with the same folded name. *)
Definition field_for_key (names : list string) (key : string) : option string :=
  match List.find (String.eqb key) names with
  | Some n => Some n
  | None => List.find (λ n, String.eqb (foldName n) (foldName key)) names
  end.

(** A JSON value stored into a Go [string]: a string is taken, [null]
    leaves the field as it is, anything else is an [UnmarshalTypeError]. *)
Definition store_string (v : json) (old : string) : option string :=
  match v with
  | JString s => Some s
  | JNull => Some old
  | _ => None
  end.

(** The body of [CreateQuestionHandler]'s [req]. *)
Record QuestionReq := { qr_Text : string }.

(** The body of [CreateAnswerHandler]'s [req]. *)
Record AnswerReq := { ar_UserID : string; ar_Text : string }.

Fixpoint decode_question_fields (fs : list (string * json)) (req : QuestionReq)
  : option QuestionReq :=
  match fs with
  | [] => Some req
  | (k, v) :: rest =>
      match field_for_key ["text"] k with
      | Some _ =>
          match store_string v (qr_Text req) with
          | Some t => decode_question_fields rest {| qr_Text := t |}
          | None => None
          end
      | None => decode_question_fields rest req
      end
  end.

(** [json.NewDecoder(r.Body).Decode(&req)] for [struct { Text string }];
    [None] is a non-nil error. *)
Definition Decode_QuestionReq (body : option json) : option QuestionReq :=
  match body with
  | None => None
  | Some JNull => Some {| qr_Text := EmptyString |}
  | Some (JObject fs) => decode_question_fields fs {| qr_Text := EmptyString |}
  | Some _ => None
  end.

Fixpoint decode_answer_fields (fs : list (string * json)) (req : AnswerReq)
  : option AnswerReq :=
  match fs with
  | [] => Some req
  | (k, v) :: rest =>
      match field_for_key ["user_id"; "text"] k with
      | Some name =>
          if String.eqb name "user_id" then
            match store_string v (ar_UserID req) with
            | Some u => decode_answer_fields rest {| ar_UserID := u; ar_Text := ar_Text req |}
            | None => None
            end
          else
            match store_string v (ar_Text req) with
            | Some t => decode_answer_fields rest {| ar_UserID := ar_UserID req; ar_Text := t |}
            | None => None
            end
      | None => decode_answer_fields rest req
      end
  end.

(** [Decode(&req)] for [struct { UserID string; Text string }]. *)
Definition Decode_AnswerReq (body : option json) : option AnswerReq :=
  match body with
  | None => None
  | Some JNull => Some {| ar_UserID := EmptyString; ar_Text := EmptyString |}
  | Some (JObject fs) => decode_answer_fields fs {| ar_UserID := EmptyString; ar_Text := EmptyString |}
  | Some _ => None
  end.

(** ** Handlers *)

Definition CreateQuestionHandler (r : Request) : DB Response :=
  match Decode_QuestionReq (Body r) with
  | None => ret (http_Error "bad request" StatusBadRequest)
  | Some req =>
      let q := Question.mk 0 (qr_Text req) 0 [] in
      let* (q, err) := CreateQuestion q in
      match err with
      | Some _ => ret (http_Error "internal" StatusInternalServerError)
      | None => ret {| status := StatusCreated; payload := OneQuestion q |}
      end
  end.

Definition GetAllQuestionsHandler (r : Request) : DB Response :=
  let* (qs, err) := GetAllQuestions in
  match err with
  | Some _ => ret (http_Error "internal" StatusInternalServerError)
  | None => ret (encoded (Questions qs))
  end.

Definition GetQuestionHandler (r : Request) : DB Response :=
  let idStr := TrimPrefix (Path r) "/questions/" in
  match Atoi idStr with
  | None => ret (http_Error "bad id" StatusBadRequest)
  | Some id =>
      let* got := GetQuestionWithAnswers id in
      match got with
      | Err _ => ret (http_Error "not found" StatusNotFound)
      | Ok q => ret (encoded (OneQuestion q))
      end
  end.

Definition DeleteQuestionHandler (r : Request) : DB Response :=
  let idStr := TrimPrefix (Path r) "/questions/" in
  match Atoi idStr with
  | None => ret (http_Error "bad id" StatusBadRequest)
  | Some id =>
      let* err := DeleteQuestion id in
      match err with
      | Some _ => ret (http_Error "not found" StatusNotFound)
      | None => ret {| status := StatusNoContent; payload := Empty |}
      end
  end.

Definition CreateAnswerHandler (r : Request) : DB Response :=
  let path := TrimPrefix (Path r) "/questions/" in
  let parts := Split path "/" in
  match parts with
  | idStr :: name :: _ =>
      if negb (String.eqb name "answers")
      then ret (http_Error "bad path" StatusBadRequest)
      else
        match Atoi idStr with
        | None => ret (http_Error "bad id" StatusBadRequest)
        | Some id =>
            match Decode_AnswerReq (Body r) with
            | None => ret (http_Error "bad request" StatusBadRequest)
            | Some req =>
                let a := Answer.mk 0 id (ar_UserID req) (ar_Text req) 0 in
                let* (a, err) := CreateAnswer a in
                match err with
                | Some _ => ret (http_Error "question not found" StatusBadRequest)
                | None => ret {| status := StatusCreated; payload := OneAnswer a |}
                end
            end
        end
  | _ => ret (http_Error "bad path" StatusBadRequest)
  end.

Definition GetAnswerHandler (r : Request) : DB Response :=
  let idStr := TrimPrefix (Path r) "/answers/" in
  match Atoi idStr with
  | None => ret (http_Error "bad id" StatusBadRequest)
  | Some id =>
      let* got := GetAnswer id in
      match got with
      | Err _ => ret (http_Error "not found" StatusNotFound)
      | Ok a => ret (encoded (OneAnswer a))
      end
  end.

Definition DeleteAnswerHandler (r : Request) : DB Response :=
  let idStr := TrimPrefix (Path r) "/answers/" in
  match Atoi idStr with
  | None => ret (http_Error "bad id" StatusBadRequest)
  | Some id =>
      let* err := DeleteAnswer id in
      match err with
      | Some _ => ret (http_Error "not found" StatusNotFound)
      | None => ret {| status := StatusNoContent; payload := Empty |}
      end
  end.

(** ** Router

    The two functions [main] registers on the mux, under the patterns
    [/questions/] and [/answers/]. *)

Definition is_questions_root (path : string) : bool :=
  String.eqb path "/questions/" || String.eqb path "/questions".

Definition questionsRoute (r : Request) : DB Response :=
  if String.eqb (Method r) MethodPost && HasSuffix (Path r) "/answers"
  then CreateAnswerHandler r
  else if String.eqb (Method r) MethodGet && is_questions_root (Path r)
  then GetAllQuestionsHandler r
  else if String.eqb (Method r) MethodPost && is_questions_root (Path r)
  then CreateQuestionHandler r
  else if String.eqb (Method r) MethodGet
  then GetQuestionHandler r
  else if String.eqb (Method r) MethodDelete
  then DeleteQuestionHandler r
  else ret http_NotFound.

Definition answersRoute (r : Request) : DB Response :=
  if String.eqb (Method r) MethodGet then GetAnswerHandler r
  else if String.eqb (Method r) MethodDelete then DeleteAnswerHandler r
  else ret (http_Error "method not allowed" StatusMethodNotAllowed).

(** ** The service over time

    Every request the process serves is a call of one of the two routes;
    the mux picks the route from the path.  An event is such a call together
    with what the environment does during it. *)

Inductive Pattern := QuestionsPattern | AnswersPattern.

Definition serve (p : Pattern) (r : Request) : DB Response :=
  match p with
  | QuestionsPattern => questionsRoute r
  | AnswersPattern => answersRoute r
  end.

Record Event := {
  ev_pattern : Pattern;
  ev_request : Request;
  ev_faults : list bool;
  ev_now : Z
}.

(** The world an event runs in. *)
Definition world_of (e : Event) (s : Store) : World :=
  {| store := s; faults := ev_faults e; now := ev_now e |}.

Definition exec (e : Event) (s : Store) : Response * Store :=
  let (resp, w) := serve (ev_pattern e) (ev_request e) (world_of e s) in
  (resp, store w).

(** The responses to a sequence of events, oldest first, and the store they
    leave. *)
Fixpoint run (s : Store) (es : list Event) : list Response * Store :=
  match es with
  | [] => ([], s)
  | e :: rest =>
      let (resp, s') := exec e s in
      let (resps, s'') := run s' rest in
      (resp :: resps, s'')
  end.

Definition final (s : Store) (es : list Event) : Store := (run s es).2.

(** ** Vocabulary of the properties *)

(** What holds of every store the service can reach: the sequences stay in
    the range of [int], every key was handed out by its sequence, and every
    answer references a question that is there. *)
Record store_wf (s : Store) : Prop := {
  wf_questions_seq : 0 ≤ questions_id_seq s ≤ maxInt;
  wf_answers_seq : 0 ≤ answers_id_seq s ≤ maxInt;
  wf_questions_keys :
    ∀ id r, questions s !! id = Some r → 1 ≤ id ≤ questions_id_seq s;
  wf_answers_keys :
    ∀ id r, answers s !! id = Some r → 1 ≤ id ≤ answers_id_seq s;
  wf_foreign_key :
    ∀ id r, answers s !! id = Some r → is_Some (questions s !! a_question_id r)
}.

(** An answer key that is free and will stay free: the sequence is past it. *)
Definition retired (aid : Z) (s : Store) : Prop :=
  answers s !! aid = None ∧ aid ≤ answers_id_seq s.

(** [POST /questions] answered [201]. *)
Definition question_created (e : Event) (resp : Response) : bool :=
  match ev_pattern e with
  | QuestionsPattern =>
      String.eqb (Method (ev_request e)) MethodPost
      && is_questions_root (Path (ev_request e))
      && (status resp =? StatusCreated)
  | AnswersPattern => false
  end.

(** [DELETE /questions/{id}] answered [204]. *)
Definition question_deleted (e : Event) (resp : Response) : bool :=
  match ev_pattern e with
  | QuestionsPattern =>
      String.eqb (Method (ev_request e)) MethodDelete
      && (status resp =? StatusNoContent)
  | AnswersPattern => false
  end.

(** How many of the events, paired with their responses, satisfy [f]. *)
Fixpoint tally (f : Event → Response → bool)
    (es : list Event) (resps : list Response) : nat :=
  match es, resps with
  | e :: es', r :: rs' => ((if f e r then 1 else 0) + tally f es' rs')%nat
  | _, _ => 0%nat
  end.

(** A call as a client makes it. *)
Definition call (p : Pattern) (method path : string) (body : option json)
    (fs : list bool) (t : Z) : Event :=
  {| ev_pattern := p;
     ev_request := {| Method := method; Path := path; Body := body |};
     ev_faults := fs;
     ev_now := t |}.

(** A store with one question and one answer to it. *)
Definition one_question_store : Store :=
  {| questions := {[ 1 := {| q_text := "Why?"; q_created_at := 1 |} ]};
     answers := {[ 1 := {| a_question_id := 1; a_user_id := "u1";
                           a_text := "Because"; a_created_at := 2 |} ]};
     questions_id_seq := 1;
     answers_id_seq := 1 |}.

(** The text starts with a decimal digit, so not with a sign. *)
Definition starts_with_digit (s : string) : Prop :=
  ∃ d r, 0 ≤ d < 10 ∧ s = String (digit_char d) r.

(** What one request can do to the store. *)
Inductive Effect :=
  | Unchanged
  | QuestionInserted (id : Z) (row : QuestionRow)
  | QuestionSeqBumped
  | AnswerInserted (id : Z) (row : AnswerRow)
  | AnswerSeqBumped
  | QuestionDeleted (id : Z)
  | AnswerDeleted (id : Z).

(** The store after an effect. *)
Definition apply_effect (eff : Effect) (s : Store) : Store :=
  match eff with
  | Unchanged => s
  | QuestionInserted id row =>
      {| questions := <[id := row]> (questions s); answers := answers s;
         questions_id_seq := id; answers_id_seq := answers_id_seq s |}
  | QuestionSeqBumped =>
      {| questions := questions s; answers := answers s;
         questions_id_seq := questions_id_seq s + 1;
         answers_id_seq := answers_id_seq s |}
  | AnswerInserted id row =>
      {| questions := questions s; answers := <[id := row]> (answers s);
         questions_id_seq := questions_id_seq s; answers_id_seq := id |}
  | AnswerSeqBumped =>
      {| questions := questions s; answers := answers s;
         questions_id_seq := questions_id_seq s;
         answers_id_seq := answers_id_seq s + 1 |}
  | QuestionDeleted id =>
      {| questions := delete id (questions s);
         answers := filter (λ kv, a_question_id kv.2 ≠ id) (answers s);
         questions_id_seq := questions_id_seq s;
         answers_id_seq := answers_id_seq s |}
  | AnswerDeleted id =>
      {| questions := questions s; answers := delete id (answers s);
         questions_id_seq := questions_id_seq s;
         answers_id_seq := answers_id_seq s |}
  end.

(** When an effect is the one of event [e], answered [resp], on store [s]. *)
Definition effect_of (e : Event) (resp : Response) (s : Store) (eff : Effect)
  : Prop :=
  match eff with
  | Unchanged =>
      question_created e resp = false ∧ question_deleted e resp = false
  | QuestionSeqBumped =>
      is_Some (questions s !! (questions_id_seq s + 1))
      ∧ question_created e resp = false ∧ question_deleted e resp = false
  | AnswerSeqBumped =>
      is_Some (answers s !! (answers_id_seq s + 1))
      ∧ question_created e resp = false ∧ question_deleted e resp = false
  | QuestionInserted id row =>
      id = questions_id_seq s + 1 ∧ id ≤ maxInt ∧ questions s !! id = None
      ∧ q_created_at row = ev_now e
      ∧ question_created e resp = true ∧ question_deleted e resp = false
  | AnswerInserted id row =>
      id = answers_id_seq s + 1 ∧ id ≤ maxInt ∧ answers s !! id = None
      ∧ is_Some (questions s !! a_question_id row)
      ∧ question_created e resp = false ∧ question_deleted e resp = false
  | QuestionDeleted id =>
      is_Some (questions s !! id)
      ∧ question_created e resp = false ∧ question_deleted e resp = true
  | AnswerDeleted id =>
      is_Some (answers s !! id)
      ∧ question_created e resp = false ∧ question_deleted e resp = false
  end.

(** A question key that is free and will stay free: the sequence is past
    it. *)
Definition question_retired (id : Z) (s : Store) : Prop :=
  questions s !! id = None ∧ id ≤ questions_id_seq s.

(** The statuses each route can answer with. *)
Definition questions_statuses : list Z :=
  [StatusOK; StatusCreated; StatusNoContent; StatusBadRequest; StatusNotFound;
   StatusInternalServerError].

Definition answers_statuses : list Z :=
  [StatusOK; StatusNoContent; StatusBadRequest; StatusNotFound;
   StatusMethodNotAllowed].

(** No byte of [s] is the separator. *)
Definition no_slash (s : string) : Prop :=
  ∀ c, In c (list_ascii_of_string s) → c ≠ "/"%char.

(** Whether a statement issued between world [w] and world [w'] failed: one
    of the entries of the oracle used up in between is [true]. *)
Definition statement_failed (w w' : World) : bool :=
  existsb (λ b, b)
    (take (length (faults w) - length (faults w')) (faults w)).
Arguments statement_failed : simpl never.

(** * Verification *)

(** ** Strings *)

Section StringFacts.

Implicit Types (s p t : string) (c : ascii).

Lemma slice_from_app p s : slice_from (String.length p) (p +:+ s) = s.
Proof. induction p as [|c p IH]; simpl; auto. Qed.

Lemma slice_to_app p s : slice_to (String.length p) (p +:+ s) = p.
Proof. induction p as [|c p IH]; simpl; [by destruct s | by rewrite IH]. Qed.

Lemma length_app p s :
  String.length (p +:+ s) = (String.length p + String.length s)%nat.
Proof. induction p as [|c p IH]; simpl; auto. Qed.

Lemma HasPrefix_app p s : HasPrefix (p +:+ s) p = true.
Proof.
  unfold HasPrefix. rewrite slice_to_app, String.eqb_refl, length_app.
  rewrite andb_true_r. apply Nat.leb_le. lia.
Qed.

Lemma TrimPrefix_app p s : TrimPrefix (p +:+ s) p = s.
Proof. unfold TrimPrefix. by rewrite HasPrefix_app, slice_from_app. Qed.

Lemma HasSuffix_app s t : HasSuffix (s +:+ t) t = true.
Proof.
  unfold HasSuffix. rewrite length_app.
  replace (String.length s + String.length t - String.length t)%nat
    with (String.length s) by lia.
  rewrite slice_from_app, String.eqb_refl, andb_true_r.
  apply Nat.leb_le. lia.
Qed.

Lemma app_empty_inv p s : p +:+ s = p → s = EmptyString.
Proof. induction p as [|c p IH]; simpl; [done | intros [=]; auto]. Qed.

(** A piece that holds no separator is cut off whole. *)
Lemma Split_app_sep s t sep :
  (∀ c, In c (list_ascii_of_string s) → c ≠ sep) →
  Split (s +:+ String sep t) sep = s :: Split t sep.
Proof.
  induction s as [|c s IH]; simpl; intros Hs.
  - by rewrite Ascii.eqb_refl.
  - destruct (Ascii.eqb_spec c sep) as [->|_].
    + exfalso. by apply (Hs sep); [left|].
    + rewrite IH; [done | intros c' Hc'; apply Hs; by right].
Qed.

End StringFacts.

(** ** Decimal text of integers *)

Section StrconvFacts.

Lemma digit_cases d : 0 ≤ d < 10 →
  d = 0 ∨ d = 1 ∨ d = 2 ∨ d = 3 ∨ d = 4 ∨ d = 5 ∨ d = 6 ∨ d = 7 ∨ d = 8 ∨ d = 9.
Proof. lia. Qed.

Lemma digit_of_digit_char d : 0 ≤ d < 10 → digit_of (digit_char d) = Some d.
Proof. intros H. decompose [or] (digit_cases d H); subst; reflexivity. Qed.

Lemma digit_char_not_sign d : 0 ≤ d < 10 →
  Ascii.eqb (digit_char d) "-" = false ∧ Ascii.eqb (digit_char d) "+" = false.
Proof. intros H. decompose [or] (digit_cases d H); subst; done. Qed.

(** A digit is none of the bytes the router and the handlers cut paths at. *)
Lemma digit_of_not_slash c d : digit_of c = Some d → c ≠ "/"%char.
Proof. intros H ->. discriminate H. Qed.

Lemma parse_digits_no_slash s n m :
  parse_digits s n = Some m → ∀ c, In c (list_ascii_of_string s) → c ≠ "/"%char.
Proof.
  revert n. induction s as [|c s IH]; simpl; intros n H c' Hc'; [done|].
  destruct (digit_of c) as [d|] eqn:Hd; [|done].
  destruct Hc' as [<-|Hc']; [by eapply digit_of_not_slash | by eapply IH].
Qed.

Lemma Atoi_no_slash s n :
  Atoi s = Some n → ∀ c, In c (list_ascii_of_string s) → c ≠ "/"%char.
Proof.
  destruct s as [|c s]; [done|]. unfold Atoi.
  destruct (Ascii.eqb_spec c "-") as [->|Hm]; simpl.
  { destruct s as [|c1 s1]; [done|].
    destruct (parse_digits (String c1 s1) 0) as [m|] eqn:Hp; [|done].
    intros _ c' [<-|Hc']; [done | by eapply parse_digits_no_slash]. }
  destruct (Ascii.eqb_spec c "+") as [->|Hp].
  { destruct s as [|c1 s1]; [done|].
    destruct (parse_digits (String c1 s1) 0) as [m|] eqn:Hq; [|done].
    intros _ c' [<-|Hc']; [done | by eapply parse_digits_no_slash]. }
  destruct (parse_digits (String c s) 0) as [m|] eqn:Hq; [|done].
  intros _ c' Hc'. by eapply parse_digits_no_slash.
Qed.

Lemma Atoi_nonempty s n : Atoi s = Some n → s ≠ EmptyString.
Proof. by destruct s. Qed.

(** Parsing what [digits_of] wrote gives the number back. *)
Lemma parse_digits_of fuel : ∀ n acc,
  0 ≤ n < 2 ^ Z.of_nat fuel →
  parse_digits (digits_of fuel n acc) 0 = parse_digits acc n.
Proof.
  induction fuel as [|fuel IH]; intros n acc Hn.
  - simpl in *. by replace n with 0 by lia.
  - cbn [digits_of]. rewrite Nat2Z.inj_succ, Z.pow_succ_r in Hn by lia.
    assert (Hd : 0 ≤ n `mod` 10 < 10) by (apply Z.mod_pos_bound; lia).
    destruct (Z.ltb_spec n 10) as [Hlt|Hge].
    + cbn [parse_digits]. rewrite digit_of_digit_char by done.
      rewrite Z.mod_small by lia. done.
    + rewrite IH.
      * cbn [parse_digits]. rewrite digit_of_digit_char by done.
        f_equal. pose proof (Z.div_mod n 10). lia.
      * split; [apply Z.div_pos; lia|].
        apply Z.div_lt_upper_bound; lia.
Qed.

Lemma digits_of_keeps_head fuel : ∀ n acc,
  starts_with_digit acc → starts_with_digit (digits_of fuel n acc).
Proof.
  induction fuel as [|fuel IH]; intros n acc Hacc; [done|].
  cbn [digits_of].
  assert (starts_with_digit (String (digit_char (n `mod` 10)) acc)).
  { exists (n `mod` 10), acc. split; [apply Z.mod_pos_bound; lia | done]. }
  destruct (n <? 10); auto.
Qed.

Lemma digits_of_head fuel n acc : starts_with_digit (digits_of (S fuel) n acc).
Proof.
  cbn [digits_of].
  assert (starts_with_digit (String (digit_char (n `mod` 10)) acc)).
  { exists (n `mod` 10), acc. split; [apply Z.mod_pos_bound; lia | done]. }
  destruct (n <? 10); [done | by apply digits_of_keeps_head].
Qed.

Lemma fuel_enough n : 0 ≤ n → 0 ≤ n < 2 ^ Z.of_nat (S (Z.to_nat (Z.log2 n))).
Proof.
  intros Hn. rewrite Nat2Z.inj_succ, Z2Nat.id by apply Z.log2_nonneg.
  destruct (Z.eq_dec n 0) as [->|Hne]; [done|].
  pose proof (Z.log2_spec n). lia.
Qed.

Lemma Atoi_digits n :
  0 ≤ n ≤ maxInt →
  Atoi (digits_of (S (Z.to_nat (Z.log2 n))) n EmptyString) = Some n.
Proof.
  intros Hn.
  pose proof (parse_digits_of _ n EmptyString (fuel_enough n (proj1 Hn))) as Hp.
  destruct (digits_of_head (Z.to_nat (Z.log2 n)) n EmptyString)
    as (d & r & Hd & Heq).
  rewrite Heq in Hp |- *. unfold Atoi.
  destruct (digit_char_not_sign d Hd) as [-> ->]. simpl orb. cbv iota.
  rewrite Hp. cbn [parse_digits].
  unfold minInt, maxInt in *.
  destruct (Z.leb_spec (- 2 ^ 63) n); [|lia].
  destruct (Z.leb_spec n (2 ^ 63 - 1)); [done|lia].
Qed.

(** An [int] written in decimal parses back to itself. *)
Lemma Atoi_Itoa n : minInt ≤ n ≤ maxInt → Atoi (Itoa n) = Some n.
Proof.
  intros Hn. unfold Itoa. destruct (Z.ltb_spec n 0) as [Hneg|Hpos].
  - assert (Hm : 0 ≤ - n) by lia.
    pose proof (parse_digits_of _ (- n) EmptyString (fuel_enough _ Hm)) as Hp.
    destruct (digits_of_head (Z.to_nat (Z.log2 (- n))) (- n) EmptyString)
      as (d & r & Hd & Heq).
    rewrite Heq in Hp. unfold Atoi. rewrite Heq.
    change (Ascii.eqb "-" "-") with true. simpl orb. cbv iota.
    rewrite Hp. cbn [parse_digits]. rewrite Z.opp_involutive.
    unfold minInt, maxInt in *.
    destruct (Z.leb_spec (- 2 ^ 63) n); [|lia].
    destruct (Z.leb_spec n (2 ^ 63 - 1)); [done|lia].
  - apply Atoi_digits. lia.
Qed.

End StrconvFacts.

(** ** Running code in [DB] *)

Lemma draw_fault_eq w :
  draw_fault w
  = (hd false (faults w),
     {| store := store w; faults := tl (faults w); now := now w |}).
Proof. unfold draw_fault. destruct w as [s [|b fs] t]; done. Qed.

Ltac db_unfold :=
  unfold CreateQuestion, GetAllQuestions, GetQuestionWithAnswers, DeleteQuestion,
    CreateAnswer, GetAnswer, DeleteAnswer,
    DB_Create_Question, DB_Create_Answer, DB_Find_Questions,
    DB_Preload_Answers_First_Question, DB_First_Question, DB_First_Answer,
    DB_Delete_Question, DB_Delete_Answer,
    bind, ret, get_store, put_store, time_Now in *;
  rewrite ?draw_fault_eq in *; cbn [fst snd store faults now hd tl] in *.

(** ** The router *)

Section Routing.

Variables (body : option json) (x : string).

Lemma root_not_answers path :
  is_questions_root path = true → HasSuffix path "/answers" = false.
Proof.
  unfold is_questions_root. intros [H|H]%orb_true_iff;
    apply String.eqb_eq in H; by subst.
Qed.

Lemma id_path_not_root : x ≠ EmptyString →
  is_questions_root ("/questions/" +:+ x) = false.
Proof.
  intros Hx. unfold is_questions_root. apply orb_false_iff. split.
  - apply String.eqb_neq. intros H.
    by apply (app_empty_inv "/questions/" x) in H.
  - by destruct x.
Qed.

Lemma questionsRoute_GET : x ≠ EmptyString →
  questionsRoute {| Method := "GET"; Path := "/questions/" +:+ x; Body := body |}
  = GetQuestionHandler {| Method := "GET"; Path := "/questions/" +:+ x; Body := body |}.
Proof.
  intros Hx. unfold questionsRoute. cbn [Method Path].
  rewrite (id_path_not_root Hx). done.
Qed.

Lemma questionsRoute_DELETE path :
  questionsRoute {| Method := "DELETE"; Path := path; Body := body |}
  = DeleteQuestionHandler {| Method := "DELETE"; Path := path; Body := body |}.
Proof. done. Qed.

Lemma questionsRoute_POST_answers path : HasSuffix path "/answers" = true →
  questionsRoute {| Method := "POST"; Path := path; Body := body |}
  = CreateAnswerHandler {| Method := "POST"; Path := path; Body := body |}.
Proof. intros H. unfold questionsRoute. cbn [Method Path]. by rewrite H. Qed.

End Routing.

(** A request under [/questions/] is served by one of five handlers or, when
    no branch matches, by [http.NotFound]. *)
Lemma questionsRoute_cases (r : Request) (w : World) :
  questionsRoute r w = CreateAnswerHandler r w
  ∨ questionsRoute r w = GetAllQuestionsHandler r w
  ∨ questionsRoute r w = CreateQuestionHandler r w
  ∨ questionsRoute r w = GetQuestionHandler r w
  ∨ questionsRoute r w = DeleteQuestionHandler r w
  ∨ questionsRoute r w = (http_NotFound, w).
Proof.
  unfold questionsRoute.
  destruct (String.eqb (Method r) MethodPost && HasSuffix (Path r) "/answers");
    [tauto|].
  destruct (String.eqb (Method r) MethodGet && is_questions_root (Path r));
    [tauto|].
  destruct (String.eqb (Method r) MethodPost && is_questions_root (Path r));
    [tauto|].
  destruct (String.eqb (Method r) MethodGet); [tauto|].
  destruct (String.eqb (Method r) MethodDelete); tauto.
Qed.

Lemma answersRoute_cases (r : Request) (w : World) :
  answersRoute r w = GetAnswerHandler r w
  ∨ answersRoute r w = DeleteAnswerHandler r w
  ∨ answersRoute r w
    = (http_Error "method not allowed" StatusMethodNotAllowed, w).
Proof.
  unfold answersRoute.
  destruct (String.eqb (Method r) MethodGet); [tauto|].
  destruct (String.eqb (Method r) MethodDelete); tauto.
Qed.

(** ** What each handler does to the store *)

Section Effects.

Implicit Types (r : Request) (w : World) (s : Store).

Lemma CreateQuestionHandler_effect r w :
  let out := CreateQuestionHandler r w in
  (store out.2 = store w ∧ status out.1 ≠ StatusCreated)
  ∨ (is_Some (questions (store w) !! (questions_id_seq (store w) + 1))
     ∧ store out.2 = apply_effect QuestionSeqBumped (store w)
     ∧ status out.1 ≠ StatusCreated)
  ∨ (∃ req,
       Decode_QuestionReq (Body r) = Some req
       ∧ hd false (faults w) = false
       ∧ questions_id_seq (store w) + 1 ≤ maxInt
       ∧ questions (store w) !! (questions_id_seq (store w) + 1) = None
       ∧ store out.2
         = apply_effect
             (QuestionInserted (questions_id_seq (store w) + 1)
                {| q_text := qr_Text req;
                   q_created_at := now w |}) (store w)
       ∧ out.1
         = {| status := StatusCreated;
              payload := OneQuestion
                (Question.mk (questions_id_seq (store w) + 1) (qr_Text req)
                   (now w) []) |}).
Proof.
  unfold CreateQuestionHandler.
  destruct (Decode_QuestionReq (Body r)) as [req|]; [|by left].
  db_unfold. cbn [Question.ID Question.Text Question.CreatedAt Question.Answers].
  destruct (hd false (faults w)); [by left|]. cbn.
  destruct (Z.ltb_spec maxInt (questions_id_seq (store w) + 1)); [by left|].
  destruct (questions (store w) !! (questions_id_seq (store w) + 1)) eqn:Hq; cbn.
  - right; left. done.
  - right; right. exists req. done.
Qed.

Lemma CreateAnswerHandler_effect r w :
  let out := CreateAnswerHandler r w in
  (store out.2 = store w ∧ status out.1 = StatusBadRequest)
  ∨ (is_Some (answers (store w) !! (answers_id_seq (store w) + 1))
     ∧ store out.2 = apply_effect AnswerSeqBumped (store w)
     ∧ status out.1 = StatusBadRequest)
  ∨ (∃ idStr rest id req,
       Split (TrimPrefix (Path r) "/questions/") "/" = idStr :: "answers" :: rest
       ∧ Atoi idStr = Some id
       ∧ Decode_AnswerReq (Body r) = Some req
       ∧ is_Some (questions (store w) !! id)
       ∧ answers_id_seq (store w) + 1 ≤ maxInt
       ∧ answers (store w) !! (answers_id_seq (store w) + 1) = None
       ∧ store out.2
         = apply_effect
             (AnswerInserted (answers_id_seq (store w) + 1)
                {| a_question_id := id; a_user_id := ar_UserID req;
                   a_text := ar_Text req;
                   a_created_at := now w |}) (store w)
       ∧ out.1
         = {| status := StatusCreated;
              payload := OneAnswer
                (Answer.mk (answers_id_seq (store w) + 1) id (ar_UserID req)
                   (ar_Text req) (now w)) |}).
Proof.
  unfold CreateAnswerHandler.
  destruct (Split (TrimPrefix (Path r) "/questions/") "/")
    as [|idStr [|name rest]] eqn:Hparts; [by left | by left |].
  destruct (String.eqb_spec name "answers") as [->|Hname]; cbn [negb];
    [|by left].
  destruct (Atoi idStr) as [id|] eqn:Hid; [|by left].
  destruct (Decode_AnswerReq (Body r)) as [req|] eqn:Hreq; [|by left].
  db_unfold. cbn [Answer.ID Answer.QuestionID Answer.UserID Answer.Text
                  Answer.CreatedAt].
  destruct (hd false (faults w)); [by left|]. cbn.
  destruct (questions (store w) !! id) as [qrow|] eqn:Hq; cbn; [|by left].
  rewrite draw_fault_eq; cbn.
  destruct (hd false (tl (faults w))); [by left|]. cbn.
  destruct (Z.ltb_spec maxInt (answers_id_seq (store w) + 1)); [by left|].
  rewrite Hq.
  destruct (answers (store w) !! (answers_id_seq (store w) + 1)) eqn:Ha; cbn.
  - right; left. done.
  - right; right. exists idStr, rest, id, req. done.
Qed.

Lemma GetAllQuestionsHandler_effect r w :
  let out := GetAllQuestionsHandler r w in
  store out.2 = store w
  ∧ (status out.1 = StatusOK ∨ status out.1 = StatusInternalServerError).
Proof.
  unfold GetAllQuestionsHandler. db_unfold.
  destruct (hd false (faults w)); cbn; auto.
Qed.

Lemma GetQuestionHandler_effect r w :
  let out := GetQuestionHandler r w in
  store out.2 = store w
  ∧ (status out.1 = StatusOK ∨ status out.1 = StatusBadRequest
     ∨ status out.1 = StatusNotFound).
Proof.
  unfold GetQuestionHandler.
  destruct (Atoi _) as [id|]; [|by auto].
  db_unfold. destruct (hd false (faults w)); cbn; [by auto|].
  destruct (questions (store w) !! id); cbn; [|by auto].
  rewrite draw_fault_eq; cbn.
  destruct (hd false (tl (faults w))); cbn; auto.
Qed.

Lemma GetAnswerHandler_effect r w :
  let out := GetAnswerHandler r w in
  store out.2 = store w
  ∧ (status out.1 = StatusOK ∨ status out.1 = StatusBadRequest
     ∨ status out.1 = StatusNotFound).
Proof.
  unfold GetAnswerHandler.
  destruct (Atoi _) as [id|]; [|by auto].
  db_unfold. destruct (hd false (faults w)); cbn; [by auto|].
  destruct (answers (store w) !! id); cbn; auto.
Qed.

Lemma DeleteQuestionHandler_effect r w :
  let out := DeleteQuestionHandler r w in
  (store out.2 = store w
   ∧ (status out.1 = StatusBadRequest ∨ status out.1 = StatusNotFound))
  ∨ (∃ id,
       Atoi (TrimPrefix (Path r) "/questions/") = Some id
       ∧ hd false (faults w) = false
       ∧ is_Some (questions (store w) !! id)
       ∧ store out.2 = apply_effect (QuestionDeleted id) (store w)
       ∧ out.1 = {| status := StatusNoContent; payload := Empty |}).
Proof.
  unfold DeleteQuestionHandler.
  destruct (Atoi _) as [id|] eqn:Hid; [|by auto].
  db_unfold. destruct (hd false (faults w)) eqn:Hf; cbn; [by auto|].
  destruct (questions (store w) !! id) eqn:Hq; cbn; [|by auto].
  right. exists id. rewrite Hq. eauto 10.
Qed.

Lemma DeleteAnswerHandler_effect r w :
  let out := DeleteAnswerHandler r w in
  (store out.2 = store w
   ∧ (status out.1 = StatusBadRequest ∨ status out.1 = StatusNotFound))
  ∨ (∃ id,
       Atoi (TrimPrefix (Path r) "/answers/") = Some id
       ∧ hd false (faults w) = false
       ∧ is_Some (answers (store w) !! id)
       ∧ store out.2 = apply_effect (AnswerDeleted id) (store w)
       ∧ out.1 = {| status := StatusNoContent; payload := Empty |}).
Proof.
  unfold DeleteAnswerHandler.
  destruct (Atoi _) as [id|] eqn:Hid; [|by auto].
  db_unfold. destruct (hd false (faults w)) eqn:Hf; cbn; [by auto|].
  destruct (answers (store w) !! id) eqn:Hq; cbn; [|by auto].
  right. exists id. rewrite Hq. eauto 10.
Qed.

End Effects.

(** ** One event *)

Section Events.

Implicit Types (e : Event) (s : Store) (resp : Response).

Lemma exec_eq e s :
  exec e s
  = ((serve (ev_pattern e) (ev_request e) (world_of e s)).1,
     store (serve (ev_pattern e) (ev_request e) (world_of e s)).2).
Proof. unfold exec. by destruct (serve _ _ _). Qed.

(** Every event has one of the seven effects. *)
Lemma exec_effect e s :
  ∃ eff, (exec e s).2 = apply_effect eff s ∧ effect_of e (exec e s).1 s eff.
Proof.
  rewrite exec_eq. cbn [fst snd].
  destruct e as [[|] [m path b] fs t]; unfold world_of;
    cbn [serve ev_pattern ev_request ev_faults ev_now].
  - (* /questions/ *)
    unfold questionsRoute. cbn [Method Path].
    destruct (String.eqb_spec m MethodPost) as [->|Hpost]; cbn [andb].
    + destruct (HasSuffix path "/answers") eqn:Hsuf.
      * (* POST .../answers *)
        assert (Hroot : is_questions_root path = false).
        { destruct (is_questions_root path) eqn:Hr; [|done].
          apply root_not_answers in Hr. congruence. }
        pose proof (CreateAnswerHandler_effect
          {| Method := MethodPost; Path := path; Body := b |}
          {| store := s; faults := fs; now := t |}) as H.
        cbn zeta in H. cbn [store] in H.
        destruct H as [[-> Hst]|[(Hdup & -> & Hst)|(idStr & rest & id & req & _ & _ & _
          & Hq & Hmax & Hfree & -> & ->)]].
        -- exists Unchanged. unfold question_created, question_deleted.
           cbn. by rewrite Hroot.
        -- exists AnswerSeqBumped. unfold question_created, question_deleted.
           cbn. by rewrite Hroot.
        -- eexists (AnswerInserted _ _). split; [done|].
           unfold question_created, question_deleted. cbn. by rewrite Hroot.
      * cbn [String.eqb MethodPost MethodGet Ascii.eqb Bool.eqb andb].
        destruct (is_questions_root path) eqn:Hroot.
        -- (* POST /questions *)
           pose proof (CreateQuestionHandler_effect
             {| Method := MethodPost; Path := path; Body := b |}
             {| store := s; faults := fs; now := t |}) as H.
           cbn zeta in H. cbn [store] in H.
           destruct H as [[-> Hst]|[(Hdup & -> & Hst)|(req & _ & _ & Hmax & Hfree
             & -> & ->)]].
           ++ exists Unchanged. unfold question_created, question_deleted. cbn.
              rewrite Hroot. split; [done|]. split; [|done].
              apply andb_false_intro2. by apply Z.eqb_neq.
           ++ exists QuestionSeqBumped.
              unfold question_created, question_deleted. cbn.
              rewrite Hroot. split; [done|]. split; [done|]. split; [|done].
              apply andb_false_intro2. by apply Z.eqb_neq.
           ++ eexists (QuestionInserted _ _). split; [done|].
              unfold question_created, question_deleted. cbn.
              by rewrite Hroot.
        -- exists Unchanged. unfold question_created, question_deleted. cbn.
           by rewrite Hroot.
    + destruct (String.eqb_spec m MethodGet) as [->|Hget]; cbn [andb].
      * destruct (is_questions_root path).
        -- exists Unchanged. split; [|done].
           by destruct (GetAllQuestionsHandler_effect
             {| Method := MethodGet; Path := path; Body := b |}
             {| store := s; faults := fs; now := t |}) as [-> _].
        -- exists Unchanged. split; [|done].
           by destruct (GetQuestionHandler_effect
             {| Method := MethodGet; Path := path; Body := b |}
             {| store := s; faults := fs; now := t |}) as [-> _].
      * assert (Hnp : String.eqb m MethodPost = false) by by apply String.eqb_neq.
        destruct (String.eqb_spec m MethodDelete) as [->|Hdel].
        -- pose proof (DeleteQuestionHandler_effect
             {| Method := MethodDelete; Path := path; Body := b |}
             {| store := s; faults := fs; now := t |}) as H.
           cbn zeta in H. cbn [store] in H.
           destruct H as [[-> Hst]|(id & _ & _ & Hq & -> & ->)].
           ++ exists Unchanged. split; [done|].
              unfold question_created, question_deleted. cbn. split; [done|].
              apply Z.eqb_neq. by destruct Hst as [-> | ->].
           ++ exists (QuestionDeleted id). done.
        -- exists Unchanged. unfold question_created, question_deleted. cbn.
           rewrite Hnp. split; [done|]. split; [done|].
           apply andb_false_intro1. by apply String.eqb_neq.
  - (* /answers/ *)
    unfold answersRoute. cbn [Method].
    destruct (String.eqb m MethodGet).
    + exists Unchanged. split; [|done].
      by destruct (GetAnswerHandler_effect
        {| Method := m; Path := path; Body := b |}
        {| store := s; faults := fs; now := t |}) as [-> _].
    + destruct (String.eqb m MethodDelete); [|by exists Unchanged].
      pose proof (DeleteAnswerHandler_effect
        {| Method := m; Path := path; Body := b |}
        {| store := s; faults := fs; now := t |}) as H.
      cbn zeta in H. cbn [store] in H.
      destruct H as [[-> Hst]|(id & _ & _ & Hq & -> & ->)].
      * by exists Unchanged.
      * by exists (AnswerDeleted id).
Qed.

End Events.

(** ** Invariants of the store *)

Section Invariants.

Implicit Types (e : Event) (s : Store) (resp : Response) (eff : Effect).

Lemma initial_store_wf : store_wf initial_store.
Proof. split; cbn; try done; unfold maxInt; lia. Qed.

Lemma one_question_store_wf : store_wf one_question_store.
Proof.
  split; cbn; unfold maxInt; try lia.
  - intros id q [<- <-]%lookup_singleton_Some. lia.
  - intros id a [<- <-]%lookup_singleton_Some. lia.
  - intros id a [<- <-]%lookup_singleton_Some. by eexists.
Qed.

(** No effect of a request breaks the invariant. *)
Lemma effect_wf e resp s eff :
  store_wf s → effect_of e resp s eff → store_wf (apply_effect eff s).
Proof.
  intros [Hqs Has Hqk Hak Hfk] Heff.
  destruct eff as [|id row| |id row| |id|id]; cbn in Heff |- *.
  - by split.
  - destruct Heff as (-> & Hmax & Hfree & _).
    split; cbn; try done; try lia.
    + intros id r [[<- <-]|[Hne Hr]]%lookup_insert_Some; [lia|].
      apply Hqk in Hr. lia.
    + intros id r Hr. destruct (Hfk _ _ Hr) as [q Hq].
      destruct (decide (questions_id_seq s + 1 = a_question_id r)) as [<-|Hne].
      * rewrite lookup_insert_eq. eauto.
      * rewrite lookup_insert_ne by done. eauto.
  - destruct Heff as ([q Hq] & _). apply Hqk in Hq. lia.
  - destruct Heff as (-> & Hmax & Hfree & Hq & _).
    split; cbn; try done; try lia.
    + intros id r [[<- <-]|[Hne Hr]]%lookup_insert_Some; [lia|].
      apply Hak in Hr. lia.
    + intros id r [[<- <-]|[Hne Hr]]%lookup_insert_Some; [done|].
      by eapply Hfk.
  - destruct Heff as ([a Ha] & _). apply Hak in Ha. lia.
  - split; cbn; try done.
    + intros k r [Hne Hr]%lookup_delete_Some. by eapply Hqk.
    + intros k r [Hr _]%map_lookup_filter_Some. by eapply Hak.
    + intros k r [Hr Hne]%map_lookup_filter_Some. cbn in Hne.
      rewrite lookup_delete_ne by done. by eapply Hfk.
  - split; cbn; try done.
    + intros k r [Hne Hr]%lookup_delete_Some. by eapply Hak.
    + intros k r [Hne Hr]%lookup_delete_Some. by eapply Hfk.
Qed.

Lemma exec_wf e s : store_wf s → store_wf (exec e s).2.
Proof.
  intros Hwf. destruct (exec_effect e s) as (eff & -> & Heff).
  by eapply effect_wf.
Qed.

Lemma run_cons e es s :
  run s (e :: es)
  = ((exec e s).1 :: (run (exec e s).2 es).1, (run (exec e s).2 es).2).
Proof.
  cbn [run]. destruct (exec e s) as [resp s']. cbn [fst snd].
  by destruct (run s' es).
Qed.

Lemma final_cons e es s : final s (e :: es) = final (exec e s).2 es.
Proof. unfold final. by rewrite run_cons. Qed.

Lemma final_wf es : ∀ s, store_wf s → store_wf (final s es).
Proof.
  induction es as [|e es IH]; intros s Hwf; [done|].
  rewrite final_cons. by apply IH, exec_wf.
Qed.

(** A retired answer key is never handed out again. *)
Lemma effect_retired aid e resp s eff :
  retired aid s → effect_of e resp s eff → retired aid (apply_effect eff s).
Proof.
  intros [Hnone Hle] Heff.
  destruct eff as [|id row| |id row| |id|id]; cbn in Heff |- *;
    split; cbn; try done; try lia.
  - destruct Heff as (-> & _). rewrite lookup_insert_ne by lia. done.
  - apply map_lookup_filter_None. by left.
  - rewrite lookup_delete_None. by right.
Qed.

Lemma exec_retired aid e s : retired aid s → retired aid (exec e s).2.
Proof.
  intros H. destruct (exec_effect e s) as (eff & -> & Heff).
  by eapply effect_retired.
Qed.

Lemma final_retired aid es : ∀ s, retired aid s → retired aid (final s es).
Proof.
  induction es as [|e es IH]; intros s H; [done|].
  rewrite final_cons. by apply IH, exec_retired.
Qed.

(** Questions are counted: one more per create, one less per delete. *)
Lemma exec_size e s :
  (size (questions (exec e s).2)
   + (if question_deleted e (exec e s).1 then 1 else 0)
   = size (questions s)
     + (if question_created e (exec e s).1 then 1 else 0))%nat.
Proof.
  destruct (exec_effect e s) as (eff & -> & Heff).
  destruct eff as [|id row| |id row| |id|id]; cbn in Heff |- *.
  - by destruct Heff as [-> ->].
  - destruct Heff as (_ & _ & Hfree & _ & -> & ->).
    rewrite map_size_insert_None by done. lia.
  - by destruct Heff as (_ & -> & ->).
  - by destruct Heff as (_ & _ & _ & _ & -> & ->).
  - by destruct Heff as (_ & -> & ->).
  - destruct Heff as ([q Hq] & -> & ->).
    rewrite map_size_delete_Some by eauto.
    assert (size (questions s) ≠ 0%nat); [|lia].
    apply map_size_ne_0_lookup. eauto.
  - by destruct Heff as (_ & -> & ->).
Qed.

Lemma run_size es : ∀ s,
  (size (questions (final s es)) + tally question_deleted es (run s es).1
   = size (questions s) + tally question_created es (run s es).1)%nat.
Proof.
  induction es as [|e es IH]; intros s; [done|].
  rewrite final_cons, run_cons. cbn [fst tally].
  specialize (IH (exec e s).2). pose proof (exec_size e s). lia.
Qed.

End Invariants.

(** ** The HTTP contract *)

Section Contract.

Implicit Types (r : Request) (w : World) (body : option json) (x : string).

(** C10: a method the route does not support is answered differently under
    the two prefixes.  Under [/answers/] every method other than GET and
    DELETE gets 405 "method not allowed"; under [/questions/] a request that
    is neither a GET nor a DELETE and that matches none of the POST branches
    (for instance [PUT /questions/1]) gets 404.  Neither touches the store. *)
Theorem unsupported_method_405_vs_404 r w :
  Method r ≠ MethodGet → Method r ≠ MethodDelete →
  answersRoute r w
    = (http_Error "method not allowed" StatusMethodNotAllowed, w)
  ∧ (String.eqb (Method r) MethodPost
       && (HasSuffix (Path r) "/answers" || is_questions_root (Path r)) = false →
     questionsRoute r w = (http_NotFound, w)).
Proof.
  intros Hget%String.eqb_neq Hdel%String.eqb_neq. split.
  - unfold answersRoute. by rewrite Hget, Hdel.
  - intros Hpost. unfold questionsRoute. rewrite Hget, Hdel. cbn [andb].
    destruct (String.eqb (Method r) MethodPost); [|done].
    cbn [andb] in Hpost. apply orb_false_iff in Hpost as [-> ->]. done.
Qed.

Lemma unsupported_method_405_vs_404_witness :
  let r := {| Method := "PUT"; Path := "/questions/1"; Body := None |} in
  let w := {| store := initial_store; faults := []; now := 1 |} in
  status (answersRoute r w).1 = 405 ∧ status (questionsRoute r w).1 = 404.
Proof.
  intros r w.
  destruct (unsupported_method_405_vs_404 r w) as [Ha Hq];
    [discriminate | discriminate |].
  split.
  - rewrite Ha. reflexivity.
  - rewrite Hq; reflexivity.
Defined.

(** C6: a POST whose path ends in [/answers] is handed to answer creation
    before any of the question branches is looked at.  Whatever the rest of
    the path is, the request is served by [CreateAnswerHandler]: it is
    answered 201 or 400 and leaves the questions table as it was, so it is
    never taken for a fetch, a delete or a create of a question. *)
Theorem post_answers_goes_to_answer_creation r w :
  Method r = MethodPost → HasSuffix (Path r) "/answers" = true →
  questionsRoute r w = CreateAnswerHandler r w
  ∧ questions (store (questionsRoute r w).2) = questions (store w)
  ∧ (status (questionsRoute r w).1 = StatusCreated
     ∨ status (questionsRoute r w).1 = StatusBadRequest).
Proof.
  intros Hm Hs.
  assert (Heq : questionsRoute r w = CreateAnswerHandler r w).
  { unfold questionsRoute. by rewrite Hm, Hs. }
  rewrite Heq. split; [done|].
  destruct (CreateAnswerHandler_effect r w)
    as [[-> ->]|[(_ & -> & ->)|(? & ? & ? & ? & _ & _ & _ & _ & _ & _ & -> & ->)]];
    auto.
Qed.

Lemma post_answers_goes_to_answer_creation_witness :
  let r := {| Method := "POST"; Path := "/questions/7/answers";
              Body := Some (JObject [("user_id", JString "u1");
                                     ("text", JString "Because")]) |} in
  let w := {| store := initial_store; faults := []; now := 1 |} in
  questionsRoute r w = CreateAnswerHandler r w
  ∧ questions (store (questionsRoute r w).2) = questions (store w)
  ∧ (status (questionsRoute r w).1 = StatusCreated
     ∨ status (questionsRoute r w).1 = StatusBadRequest).
Proof.
  intros r w. apply (post_answers_goes_to_answer_creation r w); reflexivity.
Defined.

(** C8: a GET or DELETE on [/questions/{x}] or [/answers/{x}] whose
    remainder [x] is not a decimal integer is answered 400 "bad id", and
    nothing is read from or written to the store.  The four handlers do so
    for every such [x]; the router hands them every such request, the empty
    remainder under GET on [/questions/] apart, which is the list route
    [GET /questions]. *)
Theorem non_numeric_id_400 x body w :
  Atoi x = None →
  let bad := (http_Error "bad id" StatusBadRequest, w) in
  let q m := {| Method := m; Path := "/questions/" +:+ x; Body := body |} in
  let a m := {| Method := m; Path := "/answers/" +:+ x; Body := body |} in
  GetQuestionHandler (q MethodGet) w = bad
  ∧ DeleteQuestionHandler (q MethodDelete) w = bad
  ∧ GetAnswerHandler (a MethodGet) w = bad
  ∧ DeleteAnswerHandler (a MethodDelete) w = bad
  ∧ (x ≠ EmptyString → questionsRoute (q MethodGet) w = bad)
  ∧ questionsRoute (q MethodDelete) w = bad
  ∧ answersRoute (a MethodGet) w = bad
  ∧ answersRoute (a MethodDelete) w = bad.
Proof.
  intros Hx bad q a.
  assert (Hgq : GetQuestionHandler (q MethodGet) w = bad).
  { unfold GetQuestionHandler, q. cbn [Path]. by rewrite TrimPrefix_app, Hx. }
  assert (Hdq : DeleteQuestionHandler (q MethodDelete) w = bad).
  { unfold DeleteQuestionHandler, q. cbn [Path]. by rewrite TrimPrefix_app, Hx. }
  assert (Hga : GetAnswerHandler (a MethodGet) w = bad).
  { unfold GetAnswerHandler, a. cbn [Path]. by rewrite TrimPrefix_app, Hx. }
  assert (Hda : DeleteAnswerHandler (a MethodDelete) w = bad).
  { unfold DeleteAnswerHandler, a. cbn [Path]. by rewrite TrimPrefix_app, Hx. }
  do 4 (split; [done|]). split; [|done].
  intros Hne. unfold q, MethodGet. by rewrite questionsRoute_GET.
Qed.

Lemma non_numeric_id_400_witness :
  let w := {| store := initial_store; faults := [true]; now := 1 |} in
  let bad := (http_Error "bad id" StatusBadRequest, w) in
  questionsRoute {| Method := "GET"; Path := "/questions/12a"; Body := None |} w = bad
  ∧ questionsRoute {| Method := "DELETE"; Path := "/questions/12a"; Body := None |} w = bad
  ∧ answersRoute {| Method := "GET"; Path := "/answers/12a"; Body := None |} w = bad
  ∧ answersRoute {| Method := "DELETE"; Path := "/answers/12a"; Body := None |} w = bad.
Proof.
  intros w bad.
  destruct (non_numeric_id_400 "12a" None w eq_refl)
    as (_ & _ & _ & _ & Hgq & Hdq & Hga & Hda).
  split; [apply Hgq; discriminate|].
  split; [exact Hdq|]. split; [exact Hga | exact Hda].
Defined.

(** What the repository returns when the row is not there, whether or not
    the statement itself goes through. *)
Lemma GetQuestionHandler_missing r id w :
  Atoi (TrimPrefix (Path r) "/questions/") = Some id →
  questions (store w) !! id = None →
  (GetQuestionHandler r w).1 = http_Error "not found" StatusNotFound
  ∧ store (GetQuestionHandler r w).2 = store w.
Proof.
  intros Hid Hq. unfold GetQuestionHandler. rewrite Hid. db_unfold.
  destruct (hd false (faults w)); cbn; [done|]. by rewrite Hq.
Qed.

Lemma DeleteQuestionHandler_missing r id w :
  Atoi (TrimPrefix (Path r) "/questions/") = Some id →
  questions (store w) !! id = None →
  (DeleteQuestionHandler r w).1 = http_Error "not found" StatusNotFound
  ∧ store (DeleteQuestionHandler r w).2 = store w.
Proof.
  intros Hid Hq. unfold DeleteQuestionHandler. rewrite Hid. db_unfold.
  destruct (hd false (faults w)); cbn; [done|]. by rewrite Hq.
Qed.

Lemma GetAnswerHandler_missing r id w :
  Atoi (TrimPrefix (Path r) "/answers/") = Some id →
  answers (store w) !! id = None →
  (GetAnswerHandler r w).1 = http_Error "not found" StatusNotFound
  ∧ store (GetAnswerHandler r w).2 = store w.
Proof.
  intros Hid Hq. unfold GetAnswerHandler. rewrite Hid. db_unfold.
  destruct (hd false (faults w)); cbn; [done|]. by rewrite Hq.
Qed.

Lemma DeleteAnswerHandler_missing r id w :
  Atoi (TrimPrefix (Path r) "/answers/") = Some id →
  answers (store w) !! id = None →
  (DeleteAnswerHandler r w).1 = http_Error "not found" StatusNotFound
  ∧ store (DeleteAnswerHandler r w).2 = store w.
Proof.
  intros Hid Hq. unfold DeleteAnswerHandler. rewrite Hid. db_unfold.
  destruct (hd false (faults w)); cbn; [done|]. by rewrite Hq.
Qed.

(** C4: for a numeric id with no row, GET and DELETE on [/questions/{id}]
    and on [/answers/{id}] are answered 404 "not found" and leave the store
    as it was.  The two repository deletes return [ErrRecordNotFound]
    exactly when the statement reports zero affected rows. *)
Theorem missing_id_404 x id body w :
  Atoi x = Some id →
  let missing (out : Response * World) :=
    out.1 = http_Error "not found" StatusNotFound ∧ store out.2 = store w in
  let q m := {| Method := m; Path := "/questions/" +:+ x; Body := body |} in
  let a m := {| Method := m; Path := "/answers/" +:+ x; Body := body |} in
  (questions (store w) !! id = None →
     missing (questionsRoute (q MethodGet) w)
     ∧ missing (questionsRoute (q MethodDelete) w))
  ∧ (answers (store w) !! id = None →
     missing (answersRoute (a MethodGet) w)
     ∧ missing (answersRoute (a MethodDelete) w))
  ∧ ((DeleteQuestion id w).1 = Some ErrRecordNotFound
     ↔ RowsAffected (DB_Delete_Question id w).1 = 0)
  ∧ ((DeleteAnswer id w).1 = Some ErrRecordNotFound
     ↔ RowsAffected (DB_Delete_Answer id w).1 = 0).
Proof.
  intros Hid missing q a.
  assert (Hx : x ≠ EmptyString) by by eapply Atoi_nonempty.
  split; [|split; [|split]].
  - intros Hq. unfold q, MethodGet, MethodDelete.
    rewrite questionsRoute_GET, questionsRoute_DELETE by done. split.
    + apply (GetQuestionHandler_missing _ id); [|done].
      cbn [Path]. by rewrite TrimPrefix_app.
    + apply (DeleteQuestionHandler_missing _ id); [|done].
      cbn [Path]. by rewrite TrimPrefix_app.
  - intros Ha. unfold a. split.
    + apply (GetAnswerHandler_missing _ id); [|done].
      cbn [Path]. by rewrite TrimPrefix_app.
    + apply (DeleteAnswerHandler_missing _ id); [|done].
      cbn [Path]. by rewrite TrimPrefix_app.
  - db_unfold. destruct (hd false (faults w)); cbn; [done|].
    destruct (questions (store w) !! id); cbn; done.
  - db_unfold. destruct (hd false (faults w)); cbn; [done|].
    destruct (answers (store w) !! id); cbn; done.
Qed.

Lemma missing_id_404_witness :
  let w := {| store := initial_store; faults := []; now := 1 |} in
  status (questionsRoute {| Method := "GET"; Path := "/questions/5"; Body := None |} w).1 = 404
  ∧ status (questionsRoute {| Method := "DELETE"; Path := "/questions/5"; Body := None |} w).1 = 404
  ∧ status (answersRoute {| Method := "GET"; Path := "/answers/5"; Body := None |} w).1 = 404
  ∧ status (answersRoute {| Method := "DELETE"; Path := "/answers/5"; Body := None |} w).1 = 404.
Proof.
  intros w.
  destruct (missing_id_404 "5" 5 None w eq_refl) as (Hq & Ha & _).
  destruct (Hq eq_refl) as [[Hgq _] [Hdq _]].
  destruct (Ha eq_refl) as [[Hga _] [Hda _]].
  split; [exact (f_equal status Hgq)|]. split; [exact (f_equal status Hdq)|].
  split; [exact (f_equal status Hga) | exact (f_equal status Hda)].
Defined.

(** Zero affected rows means that the statement failed or found no row. *)
Lemma DB_Delete_Question_rows id w :
  RowsAffected (DB_Delete_Question id w).1 = 0
  ↔ hd false (faults w) = true ∨ questions (store w) !! id = None.
Proof.
  db_unfold. destruct (hd false (faults w)); cbn; [by split; auto|].
  destruct (questions (store w) !! id); cbn;
    (split; [intros; try done; auto | intros [?|?]; done]).
Qed.

Lemma DB_Delete_Answer_rows id w :
  RowsAffected (DB_Delete_Answer id w).1 = 0
  ↔ hd false (faults w) = true ∨ answers (store w) !! id = None.
Proof.
  db_unfold. destruct (hd false (faults w)); cbn; [by split; auto|].
  destruct (answers (store w) !! id); cbn;
    (split; [intros; try done; auto | intros [?|?]; done]).
Qed.

Lemma CreateAnswer_path x id :
  Atoi x = Some id →
  Split (TrimPrefix ("/questions/" +:+ x +:+ "/answers") "/questions/") "/"
  = [x; "answers"].
Proof.
  intros Hid. rewrite TrimPrefix_app.
  change (x +:+ "/answers") with (x +:+ String "/" "answers").
  rewrite Split_app_sep; [done|]. by eapply Atoi_no_slash.
Qed.

Lemma answers_path_suffix x :
  HasSuffix ("/questions/" +:+ x +:+ "/answers") "/answers" = true.
Proof.
  replace ("/questions/" +:+ x +:+ "/answers")
    with (("/questions/" +:+ x) +:+ "/answers"); [apply HasSuffix_app|].
  done.
Qed.

(** C3: a POST on [/questions/{id}/answers] for an id that no question has
    is answered 400, and the store is left as it was: the question is read
    first and nothing is inserted when the read fails. *)
Theorem create_answer_without_question_400 x id body w :
  Atoi x = Some id →
  questions (store w) !! id = None →
  let r := {| Method := MethodPost;
              Path := "/questions/" +:+ x +:+ "/answers"; Body := body |} in
  status (questionsRoute r w).1 = StatusBadRequest
  ∧ store (questionsRoute r w).2 = store w.
Proof.
  intros Hid Hq r. unfold r.
  rewrite questionsRoute_POST_answers by apply answers_path_suffix.
  unfold CreateAnswerHandler. cbn [Path Body].
  rewrite (CreateAnswer_path x id Hid). cbn [String.eqb Ascii.eqb Bool.eqb negb].
  rewrite Hid. destruct (Decode_AnswerReq body) as [req|]; [|done].
  db_unfold. cbn [Answer.QuestionID].
  destruct (hd false (faults w)); cbn; [done|]. by rewrite Hq.
Qed.

Lemma create_answer_without_question_400_witness :
  let r := {| Method := "POST"; Path := "/questions/9/answers";
              Body := Some (JObject [("user_id", JString "u1");
                                     ("text", JString "Because")]) |} in
  let w := {| store := initial_store; faults := []; now := 1 |} in
  status (questionsRoute r w).1 = 400 ∧ store (questionsRoute r w).2 = store w.
Proof.
  intros r w.
  exact (create_answer_without_question_400 "9" 9 _ w eq_refl eq_refl).
Defined.

End Contract.

(** ** Storage failures *)

Section Failures.

Implicit Types (r : Request) (w : World).


Lemma statement_failed_none w s t :
  statement_failed w {| store := s; faults := faults w; now := t |} = false.
Proof.
  unfold statement_failed. cbn [faults]. by rewrite Nat.sub_diag.
Qed.






End Failures.

(** ** Cascade and referential integrity *)

Section Cascade.

Implicit Types (s : Store) (x : string) (id aid : Z) (body : option json).

Lemma exec_delete_question s x id body fs t :
  Atoi x = Some id →
  is_Some (questions s !! id) →
  hd false fs = false →
  exec (call QuestionsPattern MethodDelete ("/questions/" +:+ x) body fs t) s
  = ({| status := StatusNoContent; payload := Empty |},
     apply_effect (QuestionDeleted id) s).
Proof.
  intros Hid [q Hq] Hf. rewrite exec_eq.
  unfold call, world_of. cbn [serve ev_pattern ev_request ev_faults ev_now].
  unfold MethodDelete. rewrite questionsRoute_DELETE.
  unfold DeleteQuestionHandler. cbn [Path]. rewrite TrimPrefix_app, Hid.
  db_unfold. rewrite Hf. cbn. rewrite Hq. done.
Qed.

Lemma exec_get_retired_answer s aid y body fs t :
  Atoi y = Some aid →
  answers s !! aid = None →
  exec (call AnswersPattern MethodGet ("/answers/" +:+ y) body fs t) s
  = (http_Error "not found" StatusNotFound, s).
Proof.
  intros Hy Ha. rewrite exec_eq.
  unfold call, world_of. cbn [serve ev_pattern ev_request ev_faults ev_now].
  unfold answersRoute. cbn [Method MethodGet String.eqb Ascii.eqb Bool.eqb].
  match goal with |- context [GetAnswerHandler ?r ?w] =>
    destruct (GetAnswerHandler_missing r aid w) as [-> ->] end;
    [cbn [Path]; by rewrite TrimPrefix_app | done | done].
Qed.

(** C1: for a question that is in the store, a [DELETE /questions/{id}]
    whose statement goes through is answered 204 and removes, with the
    question, every answer whose [question_id] is that id.  From then on,
    whatever requests are served in between, [GET /answers/{id}] for such an
    answer is answered 404 "not found", however the id is written in the
    path; its decimal text is one way to write it. *)
Theorem delete_question_cascades_to_answers s x id body fs t :
  store_wf s →
  Atoi x = Some id →
  is_Some (questions s !! id) →
  hd false fs = false →
  let e := call QuestionsPattern MethodDelete ("/questions/" +:+ x) body fs t in
  let s' := (exec e s).2 in
  (exec e s).1 = {| status := StatusNoContent; payload := Empty |}
  ∧ questions s' !! id = None
  ∧ (∀ aid row, answers s' !! aid = Some row → a_question_id row ≠ id)
  ∧ ∀ aid row, answers s !! aid = Some row → a_question_id row = id →
      answers s' !! aid = None
      ∧ Atoi (Itoa aid) = Some aid
      ∧ ∀ later y body' fs' t',
          Atoi y = Some aid →
          exec (call AnswersPattern MethodGet ("/answers/" +:+ y)
                  body' fs' t') (final s' later)
          = (http_Error "not found" StatusNotFound, final s' later).
Proof.
  intros Hwf Hid Hq Hf e s'. unfold s', e.
  rewrite (exec_delete_question s x id) by done. cbn [fst snd].
  split; [done|]. split; [apply lookup_delete_eq|]. split.
  { intros aid row [_ Hne]%map_lookup_filter_Some. done. }
  intros aid row Ha Hrow.
  assert (Hgone : answers (apply_effect (QuestionDeleted id) s) !! aid = None).
  { cbn. apply map_lookup_filter_None. right. intros row' Ha' Hne.
    rewrite Ha in Ha'. injection Ha' as <-. done. }
  pose proof (wf_answers_keys s Hwf aid row Ha) as Hkey.
  pose proof (wf_answers_seq s Hwf) as Hseq.
  split; [done|]. split; [apply Atoi_Itoa; unfold minInt; lia|].
  intros later y body' fs' t' Hy.
  assert (Hret : retired aid (final (apply_effect (QuestionDeleted id) s) later)).
  { apply final_retired. split; [done|]. cbn. lia. }
  by apply (exec_get_retired_answer _ aid); [|apply Hret].
Qed.

Lemma delete_question_cascades_to_answers_witness :
  let e := call QuestionsPattern "DELETE" "/questions/1" None [] 5 in
  let later := [call QuestionsPattern "POST" "/questions/"
                  (Some (JObject [("text", JString "Again?")])) [] 6;
                call QuestionsPattern "POST" "/questions/2/answers"
                  (Some (JObject [("user_id", JString "u2");
                                  ("text", JString "Yes")])) [] 7] in
  let s' := (exec e one_question_store).2 in
  (exec e one_question_store).1 = {| status := 204; payload := Empty |}
  ∧ answers s' !! 1 = None
  ∧ exec (call AnswersPattern "GET" "/answers/1" None [] 8) (final s' later)
    = (http_Error "not found" StatusNotFound, final s' later).
Proof.
  intros e later s'.
  assert (Hwf : store_wf one_question_store).
  { split; cbn; unfold maxInt; try lia.
    - intros id r [<- <-]%lookup_singleton_Some. lia.
    - intros id r [<- <-]%lookup_singleton_Some. lia.
    - intros id r [<- <-]%lookup_singleton_Some. by eexists. }
  destruct (delete_question_cascades_to_answers one_question_store "1" 1 None
              [] 5 Hwf eq_refl (ex_intro _ _ eq_refl) eq_refl)
    as (Hst & _ & _ & Hans).
  destruct (Hans 1 _ eq_refl eq_refl) as (Hgone & _ & Hget).
  split; [exact Hst|]. split; [exact Hgone|].
  exact (Hget later "1" None [] 8 eq_refl).
Defined.

(** C2: in every store reached from the empty one, every answer references
    a question that is in the store.  The reference is checked when the
    answer is created: an answer a request adds references a question that
    was there before the request.  It is kept afterwards by the cascade
    alone: when a request removes a question, no answer that references it
    is left. *)
Theorem answers_reference_existing_questions (es : list Event) :
  let s := final initial_store es in
  (∀ aid row, answers s !! aid = Some row →
     is_Some (questions s !! a_question_id row))
  ∧ (∀ e aid row,
       answers s !! aid = None → answers (exec e s).2 !! aid = Some row →
       is_Some (questions s !! a_question_id row))
  ∧ (∀ e id,
       is_Some (questions s !! id) → questions (exec e s).2 !! id = None →
       ∀ aid row, answers (exec e s).2 !! aid = Some row →
                  a_question_id row ≠ id).
Proof.
  intros s.
  assert (Hwf : store_wf s) by apply final_wf, initial_store_wf.
  split; [apply Hwf|]. split.
  - intros e aid row Hnone Hsome.
    destruct (exec_effect e s) as (eff & Heq & Heff). rewrite Heq in Hsome.
    destruct eff as [|? ?| |id' row'| |?|?]; cbn in Heff, Hsome;
      try congruence.
    + apply lookup_insert_Some in Hsome as [[<- <-]|[_ Hsome]]; [|congruence].
      apply Heff.
    + apply map_lookup_filter_Some in Hsome as [Hsome _]. congruence.
    + apply lookup_delete_Some in Hsome as [_ Hsome]. congruence.
  - intros e id [q Hq] Hgone aid row Hsome.
    destruct (exec_effect e s) as (eff & Heq & Heff).
    rewrite Heq in Hsome, Hgone.
    destruct eff as [|id' row'| |id' row'| |id'|id']; cbn in Heff, Hsome, Hgone;
      try congruence.
    + apply lookup_insert_None in Hgone as [Hgone _]. congruence.
    + apply map_lookup_filter_Some in Hsome as [_ Hne]. cbn in Hne.
      apply lookup_delete_None in Hgone as [->|Hgone]; [done|congruence].
Qed.

Lemma answers_reference_existing_questions_witness :
  let es := [call QuestionsPattern "POST" "/questions/"
               (Some (JObject [("text", JString "Why?")])) [] 1;
             call QuestionsPattern "POST" "/questions/1/answers"
               (Some (JObject [("user_id", JString "u1");
                               ("text", JString "Because")])) [] 2] in
  let s := final initial_store es in
  is_Some (answers s !! 1) ∧ is_Some (questions s !! 1).
Proof.
  intros es s.
  destruct (answers_reference_existing_questions es) as (Hfk & _ & _).
  assert (Ha : answers s !! 1
               = Some {| a_question_id := 1; a_user_id := "u1";
                         a_text := "Because"; a_created_at := 2 |})
    by (vm_compute; reflexivity).
  split; [by eexists|]. exact (Hfk 1 _ Ha).
Defined.

End Cascade.

(** ** Listing *)

Section Listing.

Implicit Types (s : Store) (path : string) (body : option json).

Lemma exec_list_questions s path body fs t :
  is_questions_root path = true →
  hd false fs = false →
  exec (call QuestionsPattern MethodGet path body fs t) s
  = (encoded (Questions ((λ kv, scan_question kv.1 kv.2)
                           <$> map_to_list (questions s))), s).
Proof.
  intros Hroot Hf. rewrite exec_eq.
  unfold call, world_of. cbn [serve ev_pattern ev_request ev_faults ev_now].
  unfold questionsRoute. cbn [Method Path MethodGet MethodPost String.eqb
    Ascii.eqb Bool.eqb andb]. rewrite Hroot.
  unfold GetAllQuestionsHandler. db_unfold. by rewrite Hf.
Qed.

(** C7: [GET /questions] returns the questions of the store, each once and
    none other; after N creates and no delete that is N entries more than
    the store had, so N from the empty store; and no entry carries answers:
    its [Answers] is empty and its JSON has no [answers] key. *)
Theorem list_questions_returns_every_question s es path body fs t :
  is_questions_root path = true →
  hd false fs = false →
  tally question_deleted es (run s es).1 = 0%nat →
  let s' := final s es in
  ∃ qs,
    exec (call QuestionsPattern MethodGet path body fs t) s'
    = (encoded (Questions qs), s')
    ∧ (∀ q, q ∈ qs ↔
         ∃ row, questions s' !! Question.ID q = Some row
                ∧ q = scan_question (Question.ID q) row)
    ∧ length qs
      = (size (questions s) + tally question_created es (run s es).1)%nat
    ∧ ∀ q, q ∈ qs →
        Question.Answers q = [] ∧ "answers" ∉ Question_json_keys q.
Proof.
  intros Hroot Hf Hdel s'.
  eexists. split; [by apply exec_list_questions|]. split; [|split].
  - intros q. rewrite list_elem_of_fmap. split.
    + intros ([id row] & -> & Hin%elem_of_map_to_list). cbn. eauto.
    + intros (row & Hrow & Hq). exists (Question.ID q, row).
      split; [done|]. by apply elem_of_map_to_list.
  - rewrite length_fmap, length_map_to_list.
    pose proof (run_size es s) as Hsize. fold s' in Hsize. lia.
  - intros q ([id row] & -> & _)%list_elem_of_fmap. cbn. split; [done|].
    unfold Question_json_keys. cbn.
    rewrite !not_elem_of_cons. repeat (split; [done|]).
    apply not_elem_of_nil.
Qed.

Lemma list_questions_returns_every_question_witness :
  let es := [call QuestionsPattern "POST" "/questions/"
               (Some (JObject [("text", JString "Why?")])) [] 1;
             call QuestionsPattern "POST" "/questions/1/answers"
               (Some (JObject [("user_id", JString "u1");
                               ("text", JString "Because")])) [] 2;
             call QuestionsPattern "POST" "/questions/"
               (Some (JObject [("text", JString "How?")])) [] 3] in
  ∃ qs,
    exec (call QuestionsPattern "GET" "/questions/" None [] 4)
      (final initial_store es)
    = (encoded (Questions qs), final initial_store es)
    ∧ length qs = 2%nat.
Proof.
  intros es.
  destruct (list_questions_returns_every_question initial_store es
              "/questions/" None [] 4 eq_refl eq_refl eq_refl)
    as (qs & Hlist & _ & Hlen & _).
  exists qs. split; [exact Hlist | exact Hlen].
Defined.

End Listing.

(** ** Create, then fetch *)

Section CreateFetch.

Implicit Types (s : Store) (path x : string) (body : option json).

Lemma decode_question_fields_skip k v fs2 : ∀ fs1 req,
  field_for_key ["text"] k = None →
  decode_question_fields (fs1 ++ (k, v) :: fs2) req
  = decode_question_fields (fs1 ++ fs2) req.
Proof.
  induction fs1 as [|[k1 v1] fs1 IH]; intros req Hk; cbn.
  - by rewrite Hk.
  - destruct (field_for_key ["text"] k1); [|by apply IH].
    destruct (store_string v1 (qr_Text req)); [by apply IH | done].
Qed.

Lemma decode_answer_fields_skip k v fs2 : ∀ fs1 req,
  field_for_key ["user_id"; "text"] k = None →
  decode_answer_fields (fs1 ++ (k, v) :: fs2) req
  = decode_answer_fields (fs1 ++ fs2) req.
Proof.
  induction fs1 as [|[k1 v1] fs1 IH]; intros req Hk; cbn.
  - by rewrite Hk.
  - destruct (field_for_key ["user_id"; "text"] k1) as [name|]; [|by apply IH].
    destruct (String.eqb name "user_id").
    + destruct (store_string v1 (ar_UserID req)); [by apply IH | done].
    + destruct (store_string v1 (ar_Text req)); [by apply IH | done].
Qed.

Lemma questionsRoute_POST_root path body :
  is_questions_root path = true →
  questionsRoute {| Method := MethodPost; Path := path; Body := body |}
  = CreateQuestionHandler {| Method := MethodPost; Path := path; Body := body |}.
Proof.
  intros Hroot. unfold questionsRoute. cbn [Method Path].
  rewrite (root_not_answers _ Hroot), Hroot. done.
Qed.

(** A question that was just inserted has no answers yet. *)
Lemma answers_of_fresh_question s row :
  store_wf s →
  answers_of (questions_id_seq s + 1)
    (apply_effect (QuestionInserted (questions_id_seq s + 1) row) s) = [].
Proof.
  intros Hwf. unfold answers_of. cbn [apply_effect answers].
  replace (filter _ (answers s)) with (∅ : gmap Z AnswerRow); [done|].
  symmetry. apply map_empty. intros aid. apply map_lookup_filter_None.
  right. intros arow Ha Heq. cbn in Heq.
  destruct (wf_foreign_key s Hwf aid arow Ha) as [q Hq].
  apply (wf_questions_keys s Hwf) in Hq. lia.
Qed.

Lemma exec_get_question s id y row body fs t :
  Atoi y = Some id →
  questions s !! id = Some row →
  hd false fs = false → hd false (tl fs) = false →
  exec (call QuestionsPattern MethodGet ("/questions/" +:+ y) body fs t) s
  = (encoded (OneQuestion
       (Question.mk id (q_text row) (q_created_at row) (answers_of id s))), s).
Proof.
  intros Hid Hq Hf1 Hf2. rewrite exec_eq.
  unfold call, world_of. cbn [serve ev_pattern ev_request ev_faults ev_now].
  unfold MethodGet. rewrite questionsRoute_GET by by eapply Atoi_nonempty.
  unfold GetQuestionHandler. cbn [Path]. rewrite TrimPrefix_app, Hid.
  db_unfold. rewrite Hf1. cbn. rewrite Hq. cbn.
  rewrite draw_fault_eq. cbn. rewrite Hf2. done.
Qed.

Lemma exec_get_answer s id y row body fs t :
  Atoi y = Some id →
  answers s !! id = Some row →
  hd false fs = false →
  exec (call AnswersPattern MethodGet ("/answers/" +:+ y) body fs t) s
  = (encoded (OneAnswer (scan_answer id row)), s).
Proof.
  intros Hid Ha Hf. rewrite exec_eq.
  unfold call, world_of. cbn [serve ev_pattern ev_request ev_faults ev_now].
  unfold answersRoute. cbn [Method MethodGet String.eqb Ascii.eqb Bool.eqb].
  unfold GetAnswerHandler. cbn [Path]. rewrite TrimPrefix_app, Hid.
  db_unfold. rewrite Hf. cbn. rewrite Ha. done.
Qed.

Lemma exec_create_question s path body fs t :
  is_questions_root path = true →
  status (exec (call QuestionsPattern MethodPost path body fs t) s).1
    = StatusCreated →
  ∃ text,
    Decode_QuestionReq body = Some {| qr_Text := text |}
    ∧ questions_id_seq s + 1 ≤ maxInt
    ∧ exec (call QuestionsPattern MethodPost path body fs t) s
      = ({| status := StatusCreated;
            payload := OneQuestion
              (Question.mk (questions_id_seq s + 1) text t []) |},
         apply_effect
           (QuestionInserted (questions_id_seq s + 1)
              {| q_text := text; q_created_at := t |}) s).
Proof.
  intros Hroot. rewrite exec_eq.
  unfold call, world_of. cbn [serve ev_pattern ev_request ev_faults ev_now].
  rewrite questionsRoute_POST_root by done. cbn [fst snd].
  match goal with |- context [CreateQuestionHandler ?r ?w] =>
    destruct (CreateQuestionHandler_effect r w)
      as [[_ Hne]|[(_ & _ & Hne)|([text] & Hreq & _ & Hmax & _ & Hst & Hresp)]]
  end; [done | done |].
  intros _. exists text. cbn [Body store now qr_Text] in *.
  rewrite Hresp, Hst. done.
Qed.

Lemma exec_create_answer s x qid body fs t :
  Atoi x = Some qid →
  status (exec (call QuestionsPattern MethodPost
                  ("/questions/" +:+ x +:+ "/answers") body fs t) s).1
    = StatusCreated →
  ∃ user text,
    Decode_AnswerReq body = Some {| ar_UserID := user; ar_Text := text |}
    ∧ answers_id_seq s + 1 ≤ maxInt
    ∧ is_Some (questions s !! qid)
    ∧ exec (call QuestionsPattern MethodPost
              ("/questions/" +:+ x +:+ "/answers") body fs t) s
      = ({| status := StatusCreated;
            payload := OneAnswer
              (Answer.mk (answers_id_seq s + 1) qid user text t) |},
         apply_effect
           (AnswerInserted (answers_id_seq s + 1)
              {| a_question_id := qid; a_user_id := user; a_text := text;
                 a_created_at := t |}) s).
Proof.
  intros Hid. rewrite exec_eq.
  unfold call, world_of. cbn [serve ev_pattern ev_request ev_faults ev_now].
  rewrite questionsRoute_POST_answers by apply answers_path_suffix.
  cbn [fst snd].
  match goal with |- context [CreateAnswerHandler ?r ?w] =>
    destruct (CreateAnswerHandler_effect r w)
      as [[_ Hne]|[(_ & _ & Hne)|(idStr & rest & id & [user text] & Hparts
            & Hid' & Hreq & Hq & Hmax & _ & Hst & Hresp)]]
  end; [by rewrite Hne | by rewrite Hne |].
  intros _. exists user, text. cbn [Path Body store now ar_UserID ar_Text] in *.
  rewrite (CreateAnswer_path x qid Hid) in Hparts.
  injection Hparts as <- <-. rewrite Hid in Hid'. injection Hid' as <-.
  rewrite Hresp, Hst. done.
Qed.

(** A question creation whose body decodes and whose insert goes through
    is answered 201. *)
Lemma exec_create_question_ok s path body req fs t :
  store_wf s →
  is_questions_root path = true →
  Decode_QuestionReq body = Some req →
  hd false fs = false →
  questions_id_seq s < maxInt →
  exec (call QuestionsPattern MethodPost path body fs t) s
  = ({| status := StatusCreated;
        payload := OneQuestion
          (Question.mk (questions_id_seq s + 1) (qr_Text req) t []) |},
     apply_effect
       (QuestionInserted (questions_id_seq s + 1)
          {| q_text := qr_Text req; q_created_at := t |}) s).
Proof.
  intros Hwf Hroot Hreq Hf Hseq.
  assert (Hfree : questions s !! (questions_id_seq s + 1) = None).
  { destruct (questions s !! (questions_id_seq s + 1)) as [row|] eqn:Hrow;
      [|done]. apply (wf_questions_keys s Hwf) in Hrow. lia. }
  rewrite exec_eq.
  unfold call, world_of. cbn [serve ev_pattern ev_request ev_faults ev_now].
  rewrite questionsRoute_POST_root by done.
  unfold CreateQuestionHandler. cbn [Body]. rewrite Hreq. db_unfold.
  cbn [Question.ID Question.Text Question.CreatedAt Question.Answers].
  rewrite Hf. cbn.
  destruct (Z.ltb_spec maxInt (questions_id_seq s + 1)); [lia|].
  rewrite Hfree. done.
Qed.

(** An answer creation for a question that is there, whose body decodes and
    whose two statements go through, is answered 201. *)
Lemma exec_create_answer_ok s x qid body req fs t :
  store_wf s →
  Atoi x = Some qid →
  is_Some (questions s !! qid) →
  Decode_AnswerReq body = Some req →
  hd false fs = false → hd false (tl fs) = false →
  answers_id_seq s < maxInt →
  exec (call QuestionsPattern MethodPost
          ("/questions/" +:+ x +:+ "/answers") body fs t) s
  = ({| status := StatusCreated;
        payload := OneAnswer
          (Answer.mk (answers_id_seq s + 1) qid (ar_UserID req)
             (ar_Text req) t) |},
     apply_effect
       (AnswerInserted (answers_id_seq s + 1)
          {| a_question_id := qid; a_user_id := ar_UserID req;
             a_text := ar_Text req; a_created_at := t |}) s).
Proof.
  intros Hwf Hx [qrow Hq] Hreq Hf1 Hf2 Hseq.
  assert (Hfree : answers s !! (answers_id_seq s + 1) = None).
  { destruct (answers s !! (answers_id_seq s + 1)) as [row|] eqn:Hrow;
      [|done]. apply (wf_answers_keys s Hwf) in Hrow. lia. }
  rewrite exec_eq.
  unfold call, world_of. cbn [serve ev_pattern ev_request ev_faults ev_now].
  rewrite questionsRoute_POST_answers by apply answers_path_suffix.
  unfold CreateAnswerHandler. cbn [Path Body].
  rewrite (CreateAnswer_path x qid Hx).
  cbn [String.eqb Ascii.eqb Bool.eqb negb]. rewrite Hx, Hreq. db_unfold.
  cbn [Answer.ID Answer.QuestionID Answer.UserID Answer.Text
       Answer.CreatedAt].
  rewrite Hf1. cbn. rewrite Hq. cbn. rewrite draw_fault_eq. cbn.
  rewrite Hf2. cbn.
  destruct (Z.ltb_spec maxInt (answers_id_seq s + 1)); [lia|].
  rewrite Hfree, Hq. done.
Qed.

(** C9: the id and the creation time of what a create request stores are
    the server's.  The body is decoded into [text] (and [user_id] for an
    answer) only, so an [id] or [created_at] member in it changes nothing.
    On a store the service has reached and with a clock past the zero time,
    a create whose body decodes and whose statements go through (for an
    answer, under a question that is there) is answered 201, and a create
    answered 201 returns the next value of the sequence as id and the
    current time as timestamp, neither zero, with the text of the body;
    a fetch by that id, written in decimal or in any other way [Atoi]
    reads, then returns the same entity when its statements go through. *)
Theorem id_and_timestamp_are_server_generated
    s path x qid k v fs1 fs2 fs t :
  store_wf s →
  t ≠ 0 →
  is_questions_root path = true →
  Atoi x = Some qid →
  k = "id" ∨ k = "created_at" →
  let post p b := call QuestionsPattern MethodPost p b fs t in
  let apath := "/questions/" +:+ x +:+ "/answers" in
  exec (post path (Some (JObject (fs1 ++ (k, v) :: fs2)))) s
    = exec (post path (Some (JObject (fs1 ++ fs2)))) s
  ∧ exec (post apath (Some (JObject (fs1 ++ (k, v) :: fs2)))) s
    = exec (post apath (Some (JObject (fs1 ++ fs2)))) s
  ∧ (∀ body,
       status (exec (post path body) s).1 = StatusCreated →
       ∃ text,
         let id := questions_id_seq s + 1 in
         let q := Question.mk id text t [] in
         Decode_QuestionReq body = Some {| qr_Text := text |}
         ∧ (exec (post path body) s).1
           = {| status := StatusCreated; payload := OneQuestion q |}
         ∧ id ≠ 0
         ∧ Atoi (Itoa id) = Some id
         ∧ ∀ y body' fs' t',
             Atoi y = Some id →
             hd false fs' = false → hd false (tl fs') = false →
             exec (call QuestionsPattern MethodGet ("/questions/" +:+ y)
                     body' fs' t') (exec (post path body) s).2
             = (encoded (OneQuestion q), (exec (post path body) s).2))
  ∧ (∀ body,
       status (exec (post apath body) s).1 = StatusCreated →
       ∃ user text,
         let id := answers_id_seq s + 1 in
         let a := Answer.mk id qid user text t in
         Decode_AnswerReq body = Some {| ar_UserID := user; ar_Text := text |}
         ∧ (exec (post apath body) s).1
           = {| status := StatusCreated; payload := OneAnswer a |}
         ∧ id ≠ 0
         ∧ Atoi (Itoa id) = Some id
         ∧ ∀ y body' fs' t',
             Atoi y = Some id →
             hd false fs' = false →
             exec (call AnswersPattern MethodGet ("/answers/" +:+ y)
                     body' fs' t') (exec (post apath body) s).2
             = (encoded (OneAnswer a), (exec (post apath body) s).2))
  ∧ (∀ body req,
       Decode_QuestionReq body = Some req →
       hd false fs = false →
       questions_id_seq s < maxInt →
       (exec (post path body) s).1
       = {| status := StatusCreated;
            payload := OneQuestion
              (Question.mk (questions_id_seq s + 1) (qr_Text req) t []) |})
  ∧ (∀ body req,
       Decode_AnswerReq body = Some req →
       is_Some (questions s !! qid) →
       hd false fs = false → hd false (tl fs) = false →
       answers_id_seq s < maxInt →
       (exec (post apath body) s).1
       = {| status := StatusCreated;
            payload := OneAnswer
              (Answer.mk (answers_id_seq s + 1) qid (ar_UserID req)
                 (ar_Text req) t) |}).
Proof.
  intros Hwf Ht Hroot Hid Hk post apath.
  pose proof (wf_questions_seq s Hwf) as Hqs.
  pose proof (wf_answers_seq s Hwf) as Has.
  assert (Hkq : field_for_key ["text"] k = None) by by destruct Hk as [-> | ->].
  assert (Hka : field_for_key ["user_id"; "text"] k = None)
    by by destruct Hk as [-> | ->].
  split; [|split; [|split; [|split; [|split]]]].
  - unfold post. rewrite !exec_eq.
    unfold call, world_of. cbn [serve ev_pattern ev_request ev_faults ev_now].
    rewrite !questionsRoute_POST_root by done.
    unfold CreateQuestionHandler. cbn [Body Decode_QuestionReq].
    by rewrite decode_question_fields_skip.
  - unfold post, apath. rewrite !exec_eq.
    unfold call, world_of. cbn [serve ev_pattern ev_request ev_faults ev_now].
    rewrite !questionsRoute_POST_answers by apply answers_path_suffix.
    unfold CreateAnswerHandler. cbn [Path Body Decode_AnswerReq].
    by rewrite decode_answer_fields_skip.
  - intros body Hst. unfold post in *.
    destruct (exec_create_question s path body fs t Hroot Hst)
      as (text & Hreq & Hmax & Hexec).
    exists text. cbn zeta. rewrite Hexec. cbn [fst snd].
    split; [done|]. split; [done|]. split; [lia|].
    split; [apply Atoi_Itoa; unfold minInt; lia|].
    intros y body' fs' t' Hy Hf1 Hf2.
    rewrite (exec_get_question _ (questions_id_seq s + 1) y
               {| q_text := text; q_created_at := t |}); try done.
    + cbn [q_text q_created_at]. by rewrite answers_of_fresh_question.
    + cbn. apply lookup_insert_eq.
  - intros body Hst. unfold post, apath in *.
    destruct (exec_create_answer s x qid body fs t Hid Hst)
      as (user & text & Hreq & Hmax & _ & Hexec).
    exists user, text. cbn zeta. rewrite Hexec. cbn [fst snd].
    split; [done|]. split; [done|]. split; [lia|].
    split; [apply Atoi_Itoa; unfold minInt; lia|].
    intros y body' fs' t' Hy Hf.
    rewrite (exec_get_answer _ (answers_id_seq s + 1) y
      {| a_question_id := qid; a_user_id := user; a_text := text;
         a_created_at := t |}); try done.
    cbn. apply lookup_insert_eq.
  - intros body req Hreq Hf Hseq. unfold post.
    by rewrite (exec_create_question_ok s path body req).
  - intros body req Hreq Hq Hf1 Hf2 Hseq. unfold post, apath.
    by rewrite (exec_create_answer_ok s x qid body req).
Qed.

Lemma id_and_timestamp_are_server_generated_witness :
  let body := Some (JObject [("id", JNumber "77"); ("text", JString "Why?")]) in
  let create := call QuestionsPattern "POST" "/questions/" body [] 9 in
  let q := Question.mk 1 "Why?" 9 [] in
  let abody := Some (JObject [("id", JNumber "77");
                              ("user_id", JString "u2");
                              ("text", JString "So")]) in
  let acreate := call QuestionsPattern "POST" "/questions/1/answers"
                   abody [] 9 in
  let a := Answer.mk 2 1 "u2" "So" 9 in
  exec create initial_store
    = exec (call QuestionsPattern "POST" "/questions/"
              (Some (JObject [("text", JString "Why?")])) [] 9) initial_store
  ∧ (exec create initial_store).1
    = {| status := StatusCreated; payload := OneQuestion q |}
  ∧ exec (call QuestionsPattern "GET" "/questions/1" None [] 10)
      (exec create initial_store).2
    = (encoded (OneQuestion q), (exec create initial_store).2)
  ∧ exec acreate one_question_store
    = exec (call QuestionsPattern "POST" "/questions/1/answers"
              (Some (JObject [("user_id", JString "u2");
                              ("text", JString "So")])) [] 9)
        one_question_store
  ∧ (exec acreate one_question_store).1
    = {| status := StatusCreated; payload := OneAnswer a |}
  ∧ exec (call AnswersPattern "GET" "/answers/2" None [] 10)
      (exec acreate one_question_store).2
    = (encoded (OneAnswer a), (exec acreate one_question_store).2).
Proof.
  intros body create q abody acreate a.
  assert (Ht : 9 ≠ 0) by discriminate.
  destruct (id_and_timestamp_are_server_generated initial_store "/questions/"
              "1" 1 "id" (JNumber "77") [] [("text", JString "Why?")] [] 9
              initial_store_wf Ht eq_refl eq_refl (or_introl eq_refl))
    as (Hsame & _ & Hq & _ & Hqok & _).
  pose proof (Hqok body {| qr_Text := "Why?" |} eq_refl eq_refl eq_refl)
    as Hcreated.
  destruct (Hq body (f_equal status Hcreated))
    as (text & Hdec & Hresp & _ & _ & Hfetch).
  injection Hdec as <-.
  destruct (id_and_timestamp_are_server_generated one_question_store
              "/questions/" "1" 1 "id" (JNumber "77") []
              [("user_id", JString "u2"); ("text", JString "So")] [] 9
              one_question_store_wf Ht eq_refl eq_refl (or_introl eq_refl))
    as (_ & Hasame & _ & Ha & _ & Haok).
  pose proof (Haok abody {| ar_UserID := "u2"; ar_Text := "So" |} eq_refl
                (ex_intro _ _ eq_refl) eq_refl eq_refl eq_refl) as Hacreated.
  destruct (Ha abody (f_equal status Hacreated))
    as (user & atext & Hadec & _ & _ & _ & Hafetch).
  injection Hadec as <- <-.
  split; [exact Hsame|]. split; [exact Hcreated|].
  split; [exact (Hfetch "1" None [] 10 eq_refl eq_refl eq_refl)|].
  split; [exact Hasame|]. split; [exact Hacreated|].
  exact (Hafetch "2" None [] 10 eq_refl eq_refl).
Defined.

End CreateFetch.

(** ** Further properties of the routes *)

Section RouteFacts.

Implicit Types (r : Request) (w : World) (s : Store).

Lemma CreateQuestionHandler_status r w :
  status (CreateQuestionHandler r w).1 = StatusCreated
  ∨ status (CreateQuestionHandler r w).1 = StatusBadRequest
  ∨ status (CreateQuestionHandler r w).1 = StatusInternalServerError.
Proof.
  unfold CreateQuestionHandler.
  destruct (Decode_QuestionReq (Body r)) as [req|]; [|by auto].
  db_unfold. cbn [Question.ID Question.Text Question.CreatedAt Question.Answers].
  destruct (hd false (faults w)); [by auto|]. cbn.
  destruct (maxInt <? questions_id_seq (store w) + 1); [by auto|].
  destruct (questions (store w) !! (questions_id_seq (store w) + 1)); cbn; auto.
Qed.

(** X1: the statuses of the two routes.  Under [/questions/] a response is
    200, 201, 204, 400, 404 or 500 and never 405; under [/answers/] it is
    200, 204, 400, 404 or 405, and never 201 or 500, whatever the storage
    does. *)
Theorem route_status_codes r w :
  In (status (questionsRoute r w).1) questions_statuses
  ∧ In (status (answersRoute r w).1) answers_statuses.
Proof.
  split.
  - destruct (questionsRoute_cases r w)
      as [->|[->|[->|[->|[->| ->]]]]]; unfold questions_statuses.
    + destruct (CreateAnswerHandler_effect r w)
        as [[_ ->]|[(_ & _ & ->)|(? & ? & ? & ? & _ & _ & _ & _ & _ & _ & _ & ->)]];
        cbn; tauto.
    + destruct (GetAllQuestionsHandler_effect r w) as [_ [-> | ->]]; cbn; tauto.
    + destruct (CreateQuestionHandler_status r w) as [->|[-> | ->]]; cbn; tauto.
    + destruct (GetQuestionHandler_effect r w) as [_ [->|[-> | ->]]];
        cbn; tauto.
    + destruct (DeleteQuestionHandler_effect r w)
        as [[_ [-> | ->]]|(? & _ & _ & _ & _ & ->)]; cbn; tauto.
    + cbn; tauto.
  - destruct (answersRoute_cases r w) as [->|[-> | ->]];
      unfold answers_statuses.
    + destruct (GetAnswerHandler_effect r w) as [_ [->|[-> | ->]]]; cbn; tauto.
    + destruct (DeleteAnswerHandler_effect r w)
        as [[_ [-> | ->]]|(? & _ & _ & _ & _ & ->)]; cbn; tauto.
    + cbn; tauto.
Qed.

(** X2: a GET never writes.  Whatever the route, the path, the body and the
    faults of the storage, the store after a GET is the store before it. *)
Theorem get_never_writes p r w :
  Method r = MethodGet → store (serve p r w).2 = store w.
Proof.
  intros Hm. destruct p; cbn [serve].
  - unfold questionsRoute. rewrite Hm.
    cbn [MethodGet MethodPost String.eqb Ascii.eqb Bool.eqb andb].
    destruct (is_questions_root (Path r)).
    + apply GetAllQuestionsHandler_effect.
    + apply GetQuestionHandler_effect.
  - unfold answersRoute. rewrite Hm.
    cbn [MethodGet String.eqb Ascii.eqb Bool.eqb].
    apply GetAnswerHandler_effect.
Qed.

Lemma get_never_writes_witness :
  let w := {| store := one_question_store; faults := [false; true]; now := 3 |} in
  store (serve QuestionsPattern
           {| Method := "GET"; Path := "/questions/1"; Body := None |} w).2
  = one_question_store.
Proof.
  intros w.
  exact (get_never_writes QuestionsPattern
           {| Method := "GET"; Path := "/questions/1"; Body := None |} w eq_refl).
Defined.

(** X3: on a store the service has reached, only a response 201 or 204
    comes with a change of the store: a request answered with any other
    status, an error or a read, leaves every table and sequence as it
    was. *)
Theorem only_201_and_204_change_the_store p r w :
  store_wf (store w) →
  status (serve p r w).1 ≠ StatusCreated →
  status (serve p r w).1 ≠ StatusNoContent →
  store (serve p r w).2 = store w.
Proof.
  intros Hwf H201 H204.
  assert (Hq : ∀ q, questions (store w) !! (questions_id_seq (store w) + 1)
                    ≠ Some q).
  { intros q Hq. apply (wf_questions_keys _ Hwf) in Hq. lia. }
  assert (Ha : ∀ a, answers (store w) !! (answers_id_seq (store w) + 1)
                    ≠ Some a).
  { intros a Ha. apply (wf_answers_keys _ Hwf) in Ha. lia. }
  destruct p; cbn [serve] in *.
  - destruct (questionsRoute_cases r w)
      as [Heq|[Heq|[Heq|[Heq|[Heq|Heq]]]]]; rewrite Heq in *.
    + destruct (CreateAnswerHandler_effect r w)
        as [[Hs _]|[([a Hdup] & _)|(? & ? & ? & ? & _ & _ & _ & _ & _ & _ & _ & Hr)]].
      * done.
      * by destruct (Ha a).
      * by rewrite Hr in H201.
    + apply GetAllQuestionsHandler_effect.
    + destruct (CreateQuestionHandler_effect r w)
        as [[Hs _]|[([q Hdup] & _)|(? & _ & _ & _ & _ & _ & Hr)]].
      * done.
      * by destruct (Hq q).
      * by rewrite Hr in H201.
    + apply GetQuestionHandler_effect.
    + destruct (DeleteQuestionHandler_effect r w)
        as [[Hs _]|(? & _ & _ & _ & _ & Hr)]; [done|].
      by rewrite Hr in H204.
    + done.
  - destruct (answersRoute_cases r w) as [Heq|[Heq|Heq]]; rewrite Heq in *.
    + apply GetAnswerHandler_effect.
    + destruct (DeleteAnswerHandler_effect r w)
        as [[Hs _]|(? & _ & _ & _ & _ & Hr)]; [done|].
      by rewrite Hr in H204.
    + done.
Qed.

Lemma only_201_and_204_change_the_store_witness :
  let w := {| store := one_question_store; faults := [true]; now := 3 |} in
  let r := {| Method := "POST"; Path := "/questions/";
              Body := Some (JObject [("text", JString "How?")]) |} in
  status (serve QuestionsPattern r w).1 = StatusInternalServerError
  ∧ store (serve QuestionsPattern r w).2 = one_question_store.
Proof.
  intros w r. split; [reflexivity|].
  apply (only_201_and_204_change_the_store QuestionsPattern r w
           one_question_store_wf); discriminate.
Defined.

End RouteFacts.

(** ** Reading and deleting by id *)

Section ById.

Implicit Types (s : Store) (x y : string) (id aid : Z) (body : option json).

Lemma scan_answer_inj id1 row1 id2 row2 :
  scan_answer id1 row1 = scan_answer id2 row2 → id1 = id2 ∧ row1 = row2.
Proof.
  destruct row1, row2. unfold scan_answer. cbn. intros [= -> -> -> -> ->]. done.
Qed.

(** The answers [Preload] attaches: those that reference the question, each
    once. *)
Lemma answers_of_spec id s a :
  a ∈ answers_of id s
  ↔ ∃ row, answers s !! Answer.ID a = Some row
           ∧ a_question_id row = id
           ∧ a = scan_answer (Answer.ID a) row.
Proof.
  unfold answers_of. rewrite list_elem_of_fmap. split.
  - intros ([aid row] & -> & Hin). apply elem_of_map_to_list in Hin.
    apply map_lookup_filter_Some in Hin as [Hrow Hq]. cbn in *. eauto.
  - intros (row & Hrow & Hq & Ha). exists (Answer.ID a, row). split; [done|].
    apply elem_of_map_to_list, map_lookup_filter_Some. done.
Qed.

Lemma answers_of_NoDup id s : NoDup (answers_of id s).
Proof.
  unfold answers_of. apply NoDup_fmap_2_strong; [|apply NoDup_map_to_list].
  intros [id1 row1] [id2 row2] _ _ Heq. cbn in Heq.
  apply scan_answer_inj in Heq as [-> ->]. done.
Qed.

(** X4: [GET /questions/{id}] for a question that is there, when its two
    statements go through, is answered 200 with the id, text and creation
    time of the row and, as [Answers], exactly the answers whose
    [question_id] is that id, each once.  The store is left as it was. *)
Theorem get_question_returns_row_and_answers s id y row body fs t :
  Atoi y = Some id →
  questions s !! id = Some row →
  hd false fs = false → hd false (tl fs) = false →
  ∃ q,
    exec (call QuestionsPattern MethodGet ("/questions/" +:+ y) body fs t) s
    = (encoded (OneQuestion q), s)
    ∧ Question.ID q = id
    ∧ Question.Text q = q_text row
    ∧ Question.CreatedAt q = q_created_at row
    ∧ NoDup (Question.Answers q)
    ∧ ∀ a, a ∈ Question.Answers q
           ↔ ∃ arow, answers s !! Answer.ID a = Some arow
                     ∧ a_question_id arow = id
                     ∧ a = scan_answer (Answer.ID a) arow.
Proof.
  intros Hy Hrow Hf1 Hf2. eexists. split; [by apply exec_get_question|].
  cbn. do 3 (split; [done|]). split; [apply answers_of_NoDup|].
  apply answers_of_spec.
Qed.

Lemma get_question_returns_row_and_answers_witness :
  ∃ q,
    exec (call QuestionsPattern "GET" "/questions/+01" None [] 3)
      one_question_store
    = (encoded (OneQuestion q), one_question_store)
    ∧ Question.Text q = "Why?"
    ∧ Answer.mk 1 1 "u1" "Because" 2 ∈ Question.Answers q.
Proof.
  destruct (get_question_returns_row_and_answers one_question_store 1 "+01"
              {| q_text := "Why?"; q_created_at := 1 |} None [] 3
              eq_refl eq_refl eq_refl eq_refl)
    as (q & Hexec & _ & Htext & _ & _ & Hans).
  exists q. split; [exact Hexec|]. split; [exact Htext|].
  apply Hans. eexists. cbn. split; [reflexivity|]. split; reflexivity.
Defined.

Lemma exec_delete_missing_answer s aid y body fs t :
  Atoi y = Some aid →
  answers s !! aid = None →
  exec (call AnswersPattern MethodDelete ("/answers/" +:+ y) body fs t) s
  = (http_Error "not found" StatusNotFound, s).
Proof.
  intros Hy Ha. rewrite exec_eq.
  unfold call, world_of. cbn [serve ev_pattern ev_request ev_faults ev_now].
  unfold answersRoute.
  cbn [Method MethodGet MethodDelete String.eqb Ascii.eqb Bool.eqb].
  match goal with |- context [DeleteAnswerHandler ?r ?w] =>
    destruct (DeleteAnswerHandler_missing r aid w) as [-> ->] end;
    [cbn [Path]; by rewrite TrimPrefix_app | done | done].
Qed.

(** X5: [DELETE /answers/{id}] for an answer that is there, when its
    statement goes through, is answered 204 and removes that answer and
    nothing else: every other answer, every question and both sequences are
    as before.  From then on GET and DELETE on that id are answered 404,
    whatever is served in between. *)
Theorem delete_answer_removes_only_that_answer s aid y row body fs t :
  store_wf s →
  Atoi y = Some aid →
  answers s !! aid = Some row →
  hd false fs = false →
  let e := call AnswersPattern MethodDelete ("/answers/" +:+ y) body fs t in
  let s' := (exec e s).2 in
  (exec e s).1 = {| status := StatusNoContent; payload := Empty |}
  ∧ answers s' !! aid = None
  ∧ (∀ aid', aid' ≠ aid → answers s' !! aid' = answers s !! aid')
  ∧ questions s' = questions s
  ∧ questions_id_seq s' = questions_id_seq s
  ∧ answers_id_seq s' = answers_id_seq s
  ∧ ∀ later y' body' fs' t',
      Atoi y' = Some aid →
      let gone := (http_Error "not found" StatusNotFound, final s' later) in
      exec (call AnswersPattern MethodGet ("/answers/" +:+ y') body' fs' t')
        (final s' later) = gone
      ∧ exec (call AnswersPattern MethodDelete ("/answers/" +:+ y') body' fs' t')
          (final s' later) = gone.
Proof.
  intros Hwf Hy Hrow Hf e s'.
  assert (Hexec : exec e s
                  = ({| status := StatusNoContent; payload := Empty |},
                     apply_effect (AnswerDeleted aid) s)).
  { unfold e. rewrite exec_eq.
    unfold call, world_of. cbn [serve ev_pattern ev_request ev_faults ev_now].
    unfold answersRoute.
    cbn [Method MethodGet MethodDelete String.eqb Ascii.eqb Bool.eqb].
    unfold DeleteAnswerHandler. cbn [Path]. rewrite TrimPrefix_app, Hy.
    db_unfold. rewrite Hf. cbn. rewrite Hrow. done. }
  unfold s'. rewrite Hexec. cbn [fst snd apply_effect questions answers
    questions_id_seq answers_id_seq].
  split; [done|]. split; [apply lookup_delete_eq|].
  split; [intros aid' Hne; by apply lookup_delete_ne|].
  do 3 (split; [done|]).
  intros later y' body' fs' t' Hy'.
  pose proof (wf_answers_keys s Hwf aid row Hrow) as Hkey.
  assert (Hret : retired aid (final (apply_effect (AnswerDeleted aid) s) later)).
  { apply final_retired. split; cbn; [apply lookup_delete_eq | lia]. }
  split.
  - by apply (exec_get_retired_answer _ aid); [|apply Hret].
  - by apply (exec_delete_missing_answer _ aid); [|apply Hret].
Qed.

Lemma delete_answer_removes_only_that_answer_witness :
  let e := call AnswersPattern "DELETE" "/answers/1" None [] 3 in
  let s' := (exec e one_question_store).2 in
  (exec e one_question_store).1 = {| status := 204; payload := Empty |}
  ∧ questions s' = questions one_question_store
  ∧ exec (call AnswersPattern "GET" "/answers/1" None [] 4) s'
    = (http_Error "not found" StatusNotFound, s').
Proof.
  intros e s'.
  destruct (delete_answer_removes_only_that_answer one_question_store 1 "1"
              _ None [] 3 one_question_store_wf eq_refl eq_refl eq_refl)
    as (Hst & _ & _ & Hq & _ & _ & Hlater).
  split; [exact Hst|]. split; [exact Hq|].
  exact (proj1 (Hlater [] "1" None [] 4 eq_refl)).
Defined.

End ById.

(** ** Question ids over time *)

Section QuestionIds.

Implicit Types (e : Event) (s : Store) (x y : string) (id : Z)
  (body : option json).

Lemma effect_question_retired id e resp s eff :
  question_retired id s → effect_of e resp s eff →
  question_retired id (apply_effect eff s).
Proof.
  intros [Hnone Hle] Heff.
  destruct eff as [|id' row| |id' row| |id'|id']; cbn in Heff |- *;
    split; cbn; try done; try lia.
  - destruct Heff as (-> & _). rewrite lookup_insert_ne by lia. done.
  - rewrite lookup_delete_None. by right.
Qed.

Lemma final_question_retired id es : ∀ s,
  question_retired id s → question_retired id (final s es).
Proof.
  induction es as [|e es IH]; intros s H; [done|].
  rewrite final_cons. apply IH.
  destruct (exec_effect e s) as (eff & -> & Heff).
  by eapply effect_question_retired.
Qed.

Lemma exec_missing_question s id y m body fs t :
  Atoi y = Some id →
  questions s !! id = None →
  m = MethodGet ∨ m = MethodDelete →
  exec (call QuestionsPattern m ("/questions/" +:+ y) body fs t) s
  = (http_Error "not found" StatusNotFound, s).
Proof.
  intros Hy Hq Hm. rewrite exec_eq.
  unfold call, world_of. cbn [serve ev_pattern ev_request ev_faults ev_now].
  destruct Hm as [-> | ->].
  - unfold MethodGet. rewrite questionsRoute_GET by by eapply Atoi_nonempty.
    match goal with |- context [GetQuestionHandler ?r ?w] =>
      destruct (GetQuestionHandler_missing r id w) as [-> ->] end;
      [cbn [Path]; by rewrite TrimPrefix_app | done | done].
  - unfold MethodDelete. rewrite questionsRoute_DELETE.
    match goal with |- context [DeleteQuestionHandler ?r ?w] =>
      destruct (DeleteQuestionHandler_missing r id w) as [-> ->] end;
      [cbn [Path]; by rewrite TrimPrefix_app | done | done].
Qed.

(** X6: a deleted question stays deleted, and its id is not given to a
    later question: after a [DELETE /questions/{id}] that went through,
    whatever requests are served next, GET and DELETE on that id are
    answered 404 and leave the store as it is. *)
Theorem deleted_question_stays_deleted s x id body fs t later y m body' fs' t' :
  store_wf s →
  Atoi x = Some id →
  is_Some (questions s !! id) →
  hd false fs = false →
  Atoi y = Some id →
  m = MethodGet ∨ m = MethodDelete →
  let e := call QuestionsPattern MethodDelete ("/questions/" +:+ x) body fs t in
  let s' := final (exec e s).2 later in
  exec (call QuestionsPattern m ("/questions/" +:+ y) body' fs' t') s'
  = (http_Error "not found" StatusNotFound, s').
Proof.
  intros Hwf Hx [row Hrow] Hf Hy Hm e s'. unfold s', e.
  rewrite (exec_delete_question s x id) by eauto. cbn [snd].
  pose proof (wf_questions_keys s Hwf id row Hrow) as Hkey.
  assert (Hret : question_retired id
                   (final (apply_effect (QuestionDeleted id) s) later)).
  { apply final_question_retired. split; cbn; [apply lookup_delete_eq | lia]. }
  apply (exec_missing_question _ id); [done | apply Hret | done].
Qed.

Lemma deleted_question_stays_deleted_witness :
  let e := call QuestionsPattern "DELETE" "/questions/1" None [] 3 in
  let later := [call QuestionsPattern "POST" "/questions/"
                  (Some (JObject [("text", JString "Again?")])) [] 4] in
  let s' := final (exec e one_question_store).2 later in
  exec (call QuestionsPattern "DELETE" "/questions/1" None [] 5) s'
  = (http_Error "not found" StatusNotFound, s').
Proof.
  intros e later s'.
  exact (deleted_question_stays_deleted one_question_store "1" 1 None [] 3
           later "1" "DELETE" None [] 5 one_question_store_wf eq_refl
           (ex_intro _ _ eq_refl) eq_refl eq_refl (or_intror eq_refl)).
Defined.

(** X7: [DELETE /questions/{id}] deletes nothing but that question and its
    answers: every other question and every answer to another question is
    in the store as before, and neither sequence moves. *)
Theorem delete_question_leaves_the_rest s x id body fs t :
  Atoi x = Some id →
  is_Some (questions s !! id) →
  hd false fs = false →
  let e := call QuestionsPattern MethodDelete ("/questions/" +:+ x) body fs t in
  let s' := (exec e s).2 in
  (∀ id', id' ≠ id → questions s' !! id' = questions s !! id')
  ∧ (∀ aid row, answers s !! aid = Some row → a_question_id row ≠ id →
       answers s' !! aid = Some row)
  ∧ questions_id_seq s' = questions_id_seq s
  ∧ answers_id_seq s' = answers_id_seq s
  ∧ S (size (questions s')) = size (questions s).
Proof.
  intros Hx Hq Hf e s'. unfold s', e.
  rewrite (exec_delete_question s x id) by done. cbn.
  split; [intros id' Hne; by apply lookup_delete_ne|].
  split; [intros aid row Hrow Hne; by apply map_lookup_filter_Some|].
  do 2 (split; [done|]).
  rewrite map_size_delete_Some by done.
  assert (size (questions s) ≠ 0%nat); [|lia].
  destruct Hq as [row Hrow]. apply map_size_ne_0_lookup. eauto.
Qed.

Lemma delete_question_leaves_the_rest_witness :
  let s := final one_question_store
             [call QuestionsPattern "POST" "/questions/"
                (Some (JObject [("text", JString "How?")])) [] 3;
              call QuestionsPattern "POST" "/questions/2/answers"
                (Some (JObject [("user_id", JString "u2");
                                ("text", JString "So")])) [] 4] in
  let s' := (exec (call QuestionsPattern "DELETE" "/questions/1" None [] 5)
               s).2 in
  is_Some (questions s' !! 2) ∧ is_Some (answers s' !! 2).
Proof.
  intros s s'.
  destruct (delete_question_leaves_the_rest s "1" 1 None [] 5 eq_refl
              (ex_intro _ _ eq_refl) eq_refl) as (Hq & Ha & _).
  split.
  - eexists. etransitivity; [apply (Hq 2); discriminate|].
    vm_compute. reflexivity.
  - eexists. apply (Ha 2); [reflexivity | discriminate].
Defined.

End QuestionIds.

(** ** Creating *)

Section Creating.

Implicit Types (e : Event) (s : Store) (x y path : string) (id qid : Z)
  (body : option json).

Lemma exec_seq_mono e s :
  questions_id_seq s ≤ questions_id_seq (exec e s).2
  ∧ answers_id_seq s ≤ answers_id_seq (exec e s).2.
Proof.
  destruct (exec_effect e s) as (eff & -> & Heff).
  destruct eff as [|id row| |id row| |id|id]; cbn in Heff |- *; lia.
Qed.

Lemma final_seq_mono es : ∀ s,
  questions_id_seq s ≤ questions_id_seq (final s es)
  ∧ answers_id_seq s ≤ answers_id_seq (final s es).
Proof.
  induction es as [|e es IH]; intros s; [done|].
  rewrite final_cons. pose proof (exec_seq_mono e s).
  specialize (IH (exec e s).2). lia.
Qed.

(** X8: question ids grow.  Of two question creations answered 201, the
    later one returns the larger id, whatever was served between them,
    deletes included: no two questions ever get the same id. *)
Theorem question_ids_strictly_increase
    s path1 body1 fs1 t1 later path2 body2 fs2 t2 :
  is_questions_root path1 = true →
  is_questions_root path2 = true →
  let e1 := call QuestionsPattern MethodPost path1 body1 fs1 t1 in
  let s2 := final (exec e1 s).2 later in
  let e2 := call QuestionsPattern MethodPost path2 body2 fs2 t2 in
  status (exec e1 s).1 = StatusCreated →
  status (exec e2 s2).1 = StatusCreated →
  ∃ q1 q2,
    payload (exec e1 s).1 = OneQuestion q1
    ∧ payload (exec e2 s2).1 = OneQuestion q2
    ∧ Question.ID q1 < Question.ID q2.
Proof.
  intros Hr1 Hr2 e1 s2 e2 H1 H2.
  destruct (exec_create_question s path1 body1 fs1 t1 Hr1 H1)
    as (text1 & _ & _ & Hexec1).
  destruct (exec_create_question s2 path2 body2 fs2 t2 Hr2 H2)
    as (text2 & _ & _ & Hexec2).
  fold e1 in Hexec1. fold e2 in Hexec2. rewrite Hexec2.
  unfold s2 in *. rewrite Hexec1 in *. cbn [fst snd payload].
  do 2 eexists. split; [done|]. split; [done|]. cbn [Question.ID].
  match goal with |- _ < questions_id_seq (final ?s0 later) + 1 =>
    assert (Hmono : questions_id_seq s + 1 ≤ questions_id_seq (final s0 later))
      by exact (proj1 (final_seq_mono later s0)) end.
  lia.
Qed.

Lemma question_ids_strictly_increase_witness :
  let e1 := call QuestionsPattern "POST" "/questions/"
              (Some (JObject [("text", JString "How?")])) [] 3 in
  let later := [call QuestionsPattern "DELETE" "/questions/2" None [] 4] in
  let s2 := final (exec e1 one_question_store).2 later in
  let e2 := call QuestionsPattern "POST" "/questions"
              (Some (JObject [("text", JString "When?")])) [] 5 in
  ∃ q1 q2,
    payload (exec e1 one_question_store).1 = OneQuestion q1
    ∧ payload (exec e2 s2).1 = OneQuestion q2
    ∧ Question.ID q1 < Question.ID q2.
Proof.
  intros e1 later s2 e2.
  apply (question_ids_strictly_increase one_question_store "/questions/" _ []
           3 later "/questions" _ [] 5); reflexivity.
Defined.

(** X9: answer ids grow in the same way: of two answer creations answered
    201, under the same question or not, the later one returns the larger
    id. *)
Theorem answer_ids_strictly_increase
    s x1 qid1 body1 fs1 t1 later x2 qid2 body2 fs2 t2 :
  Atoi x1 = Some qid1 →
  Atoi x2 = Some qid2 →
  let e1 := call QuestionsPattern MethodPost
              ("/questions/" +:+ x1 +:+ "/answers") body1 fs1 t1 in
  let s2 := final (exec e1 s).2 later in
  let e2 := call QuestionsPattern MethodPost
              ("/questions/" +:+ x2 +:+ "/answers") body2 fs2 t2 in
  status (exec e1 s).1 = StatusCreated →
  status (exec e2 s2).1 = StatusCreated →
  ∃ a1 a2,
    payload (exec e1 s).1 = OneAnswer a1
    ∧ payload (exec e2 s2).1 = OneAnswer a2
    ∧ Answer.ID a1 < Answer.ID a2.
Proof.
  intros Hx1 Hx2 e1 s2 e2 H1 H2.
  destruct (exec_create_answer s x1 qid1 body1 fs1 t1 Hx1 H1)
    as (user1 & text1 & _ & _ & _ & Hexec1).
  destruct (exec_create_answer s2 x2 qid2 body2 fs2 t2 Hx2 H2)
    as (user2 & text2 & _ & _ & _ & Hexec2).
  fold e1 in Hexec1. fold e2 in Hexec2. rewrite Hexec2.
  unfold s2 in *. rewrite Hexec1 in *. cbn [fst snd payload].
  do 2 eexists. split; [done|]. split; [done|]. cbn [Answer.ID].
  match goal with |- _ < answers_id_seq (final ?s0 later) + 1 =>
    assert (Hmono : answers_id_seq s + 1 ≤ answers_id_seq (final s0 later))
      by exact (proj2 (final_seq_mono later s0)) end.
  lia.
Qed.

Lemma answer_ids_strictly_increase_witness :
  let body := Some (JObject [("user_id", JString "u2");
                             ("text", JString "So")]) in
  let e1 := call QuestionsPattern "POST" "/questions/1/answers" body [] 3 in
  let later := [call AnswersPattern "DELETE" "/answers/2" None [] 4] in
  let s2 := final (exec e1 one_question_store).2 later in
  let e2 := call QuestionsPattern "POST" "/questions/1/answers" body [] 5 in
  ∃ a1 a2,
    payload (exec e1 one_question_store).1 = OneAnswer a1
    ∧ payload (exec e2 s2).1 = OneAnswer a2
    ∧ Answer.ID a1 < Answer.ID a2.
Proof.
  intros body e1 later s2 e2.
  apply (answer_ids_strictly_increase one_question_store "1" 1 body [] 3 later
           "1" 1 body [] 5); reflexivity.
Defined.

(** X10: the questions are counted.  After any sequence of requests the
    number of questions in the store, plus the number of question deletes
    answered 204, is the number there was plus the number of question
    creations answered 201: no other request adds or removes a question. *)
Theorem question_count_is_creates_minus_deletes (es : list Event) (s : Store) :
  (size (questions (final s es)) + tally question_deleted es (run s es).1
   = size (questions s) + tally question_created es (run s es).1)%nat.
Proof.
  revert s. induction es as [|e es IH]; intros s.
  - unfold final. cbn. lia.
  - rewrite final_cons, run_cons. cbn [fst tally].
    pose proof (exec_size e s) as Hstep.
    pose proof (IH (exec e s).2) as Hrest. lia.
Qed.

End Creating.

(** ** When a create goes through *)

Section CreateSucceeds.

Implicit Types (s : Store) (x y path : string) (id qid : Z)
  (body : option json).

(** X11: [POST /questions] with a body that decodes, on a store the service
    has reached whose sequence is not used up, when the insert goes
    through, is answered 201 with the next id, the text of the body, the
    current time and no answers.  The row is in the store afterwards, and a
    [GET /questions] then lists the question among one entry more than
    before. *)
Theorem create_question_succeeds_and_is_listed s path body req fs t :
  store_wf s →
  is_questions_root path = true →
  Decode_QuestionReq body = Some req →
  hd false fs = false →
  questions_id_seq s < maxInt →
  let e := call QuestionsPattern MethodPost path body fs t in
  let q := Question.mk (questions_id_seq s + 1) (qr_Text req) t [] in
  let s' := (exec e s).2 in
  (exec e s).1 = {| status := StatusCreated; payload := OneQuestion q |}
  ∧ questions s' !! Question.ID q
    = Some {| q_text := qr_Text req; q_created_at := t |}
  ∧ (∀ id, id ≠ Question.ID q → questions s' !! id = questions s !! id)
  ∧ answers s' = answers s
  ∧ ∀ path' body' fs' t',
      is_questions_root path' = true → hd false fs' = false →
      ∃ qs,
        exec (call QuestionsPattern MethodGet path' body' fs' t') s'
        = (encoded (Questions qs), s')
        ∧ q ∈ qs
        ∧ length qs = S (size (questions s)).
Proof.
  intros Hwf Hroot Hreq Hf Hseq e q s'.
  assert (Hfree : questions s !! (questions_id_seq s + 1) = None).
  { destruct (questions s !! (questions_id_seq s + 1)) as [row|] eqn:Hrow;
      [|done]. apply (wf_questions_keys s Hwf) in Hrow. lia. }
  assert (Hexec : exec e s
    = ({| status := StatusCreated; payload := OneQuestion q |},
       apply_effect (QuestionInserted (questions_id_seq s + 1)
         {| q_text := qr_Text req; q_created_at := t |}) s)).
  { unfold e. rewrite exec_eq.
    unfold call, world_of. cbn [serve ev_pattern ev_request ev_faults ev_now].
    rewrite questionsRoute_POST_root by done.
    unfold CreateQuestionHandler. cbn [Body]. rewrite Hreq. db_unfold.
    cbn [Question.ID Question.Text Question.CreatedAt Question.Answers].
    rewrite Hf. cbn.
    destruct (Z.ltb_spec maxInt (questions_id_seq s + 1)); [lia|].
    rewrite Hfree. done. }
  unfold s'. rewrite Hexec. cbn [fst snd apply_effect questions answers
    Question.ID q].
  split; [done|]. split; [apply lookup_insert_eq|].
  split; [intros id Hne; by apply lookup_insert_ne|]. split; [done|].
  intros path' body' fs' t' Hroot' Hf'.
  eexists. split; [by apply exec_list_questions|]. cbn [questions]. split.
  - apply list_elem_of_fmap.
    exists (questions_id_seq s + 1,
            {| q_text := qr_Text req; q_created_at := t |}).
    split; [done|]. apply elem_of_map_to_list, lookup_insert_eq.
  - rewrite length_fmap, length_map_to_list.
    by apply map_size_insert_None.
Qed.

Lemma create_question_succeeds_and_is_listed_witness :
  let e := call QuestionsPattern "POST" "/questions" (Some JNull) [] 3 in
  (exec e one_question_store).1
  = {| status := StatusCreated;
       payload := OneQuestion (Question.mk 2 EmptyString 3 []) |}.
Proof.
  intros e.
  assert (Hseq : questions_id_seq one_question_store < maxInt) by reflexivity.
  exact (proj1 (create_question_succeeds_and_is_listed one_question_store
                  "/questions" (Some JNull) _ [] 3 one_question_store_wf
                  eq_refl eq_refl eq_refl Hseq)).
Defined.

(** X12: [POST /questions/{id}/answers] for a question that is there, with a
    body that decodes, on a store the service has reached whose sequence is
    not used up, when the read and the insert go through, is answered 201
    with the next id, that question's id, the [user_id] and text of the body
    and the current time.  A [GET /questions/{id}] then returns the new
    answer together with the answers the question had, and no other. *)
Theorem create_answer_succeeds_and_is_listed s x qid body req fs t :
  store_wf s →
  Atoi x = Some qid →
  is_Some (questions s !! qid) →
  Decode_AnswerReq body = Some req →
  hd false fs = false → hd false (tl fs) = false →
  answers_id_seq s < maxInt →
  let e := call QuestionsPattern MethodPost
             ("/questions/" +:+ x +:+ "/answers") body fs t in
  let a := Answer.mk (answers_id_seq s + 1) qid (ar_UserID req)
             (ar_Text req) t in
  let s' := (exec e s).2 in
  (exec e s).1 = {| status := StatusCreated; payload := OneAnswer a |}
  ∧ questions s' = questions s
  ∧ ∀ y body' fs' t',
      Atoi y = Some qid →
      hd false fs' = false → hd false (tl fs') = false →
      ∃ q,
        exec (call QuestionsPattern MethodGet ("/questions/" +:+ y)
                body' fs' t') s'
        = (encoded (OneQuestion q), s')
        ∧ ∀ a', a' ∈ Question.Answers q ↔ a' = a ∨ a' ∈ answers_of qid s.
Proof.
  intros Hwf Hx [qrow Hq] Hreq Hf1 Hf2 Hseq e a s'.
  assert (Hfree : answers s !! (answers_id_seq s + 1) = None).
  { destruct (answers s !! (answers_id_seq s + 1)) as [row|] eqn:Hrow;
      [|done]. apply (wf_answers_keys s Hwf) in Hrow. lia. }
  set (row := {| a_question_id := qid; a_user_id := ar_UserID req;
                 a_text := ar_Text req; a_created_at := t |}).
  assert (Hexec : exec e s
    = ({| status := StatusCreated; payload := OneAnswer a |},
       apply_effect (AnswerInserted (answers_id_seq s + 1) row) s)).
  { unfold e. rewrite exec_eq.
    unfold call, world_of. cbn [serve ev_pattern ev_request ev_faults ev_now].
    rewrite questionsRoute_POST_answers by apply answers_path_suffix.
    unfold CreateAnswerHandler. cbn [Path Body].
    rewrite (CreateAnswer_path x qid Hx).
    cbn [String.eqb Ascii.eqb Bool.eqb negb]. rewrite Hx, Hreq. db_unfold.
    cbn [Answer.ID Answer.QuestionID Answer.UserID Answer.Text
         Answer.CreatedAt].
    rewrite Hf1. cbn. rewrite Hq. cbn. rewrite draw_fault_eq. cbn.
    rewrite Hf2. cbn.
    destruct (Z.ltb_spec maxInt (answers_id_seq s + 1)); [lia|].
    rewrite Hfree, Hq. done. }
  unfold s'. rewrite Hexec. cbn [fst snd].
  split; [done|]. split; [done|].
  intros y body' fs' t' Hy Hf1' Hf2'.
  eexists. split.
  { apply (exec_get_question _ qid y qrow); done. }
  cbn [Question.Answers]. intros a'. rewrite !answers_of_spec.
  cbn [apply_effect answers]. split.
  - intros (arow & Harow & Hqid & Ha').
    apply lookup_insert_Some in Harow as [[Hid <-]|[Hne Harow]].
    + left. rewrite Ha', <- Hid. done.
    + right. eauto.
  - intros [->|(arow & Harow & Hqid & Ha')].
    + exists row. cbn. rewrite lookup_insert_eq. done.
    + exists arow. split; [|done]. rewrite lookup_insert_ne; [done|].
      intros Heq. rewrite <- Heq in Harow. congruence.
Qed.

Lemma create_answer_succeeds_and_is_listed_witness :
  let body := Some (JObject [("user_id", JString "u2");
                             ("text", JString "So")]) in
  let e := call QuestionsPattern "POST" "/questions/1/answers" body [] 3 in
  (exec e one_question_store).1
  = {| status := StatusCreated;
       payload := OneAnswer (Answer.mk 2 1 "u2" "So" 3) |}.
Proof.
  intros body e.
  assert (Hseq : answers_id_seq one_question_store < maxInt) by reflexivity.
  exact (proj1 (create_answer_succeeds_and_is_listed one_question_store "1" 1
                  body _ [] 3 one_question_store_wf eq_refl
                  (ex_intro _ _ eq_refl) eq_refl eq_refl eq_refl Hseq)).
Defined.



End CreateSucceeds.

(** ** How a path is read *)

Section Paths.

Implicit Types (x y name rest : string) (id : Z) (body : option json)
  (w : World).

Lemma Split_no_sep x : no_slash x → Split x "/" = [x].
Proof.
  induction x as [|c x IH]; intros Hx; [done|]. cbn [Split].
  destruct (Ascii.eqb_spec c "/") as [->|_].
  - exfalso. by apply (Hx "/"%char); [left|].
  - rewrite IH; [done|]. intros c' Hc'. apply Hx. by right.
Qed.

Lemma Split_two_segments x name rest :
  no_slash x → no_slash name →
  Split (x +:+ "/" +:+ name +:+ "/" +:+ rest) "/"
  = x :: name :: Split rest "/".
Proof.
  intros Hx Hname.
  change (x +:+ "/" +:+ name +:+ "/" +:+ rest)
    with (x +:+ String "/" (name +:+ String "/" rest)).
  by rewrite !Split_app_sep.
Qed.

(** X14: answer creation reads the first two segments after [/questions/]
    and nothing else.  A POST whose path ends in [/answers] is an answer
    creation for the first segment when the second is [answers], whatever
    comes after it, and is answered 400 "bad path" when the second segment
    is anything else or is missing. *)
Theorem answer_creation_reads_two_segments x name rest body w :
  no_slash x → no_slash name →
  let long := "/questions/" +:+ x +:+ "/" +:+ name +:+ "/" +:+ rest in
  let post p := {| Method := MethodPost; Path := p; Body := body |} in
  let bad := (http_Error "bad path" StatusBadRequest, w) in
  (HasSuffix long "/answers" = true → name ≠ "answers" →
     questionsRoute (post long) w = bad)
  ∧ (HasSuffix long "/answers" = true → name = "answers" →
       questionsRoute (post long) w
       = questionsRoute (post ("/questions/" +:+ x +:+ "/answers")) w)
  ∧ CreateAnswerHandler (post ("/questions/" +:+ x)) w = bad.
Proof.
  intros Hx Hname long post bad. split; [|split].
  - intros Hsuf Hne. unfold post.
    rewrite questionsRoute_POST_answers by done.
    unfold CreateAnswerHandler. cbn [Path]. unfold long.
    rewrite TrimPrefix_app, Split_two_segments by done.
    apply String.eqb_neq in Hne. by rewrite Hne.
  - intros Hsuf ->. unfold post.
    rewrite !questionsRoute_POST_answers
      by (done || apply answers_path_suffix).
    unfold CreateAnswerHandler. cbn [Path]. unfold long.
    rewrite !TrimPrefix_app, Split_two_segments by done.
    change (x +:+ "/answers") with (x +:+ String "/" "answers").
    by rewrite Split_app_sep.
  - unfold post, CreateAnswerHandler. cbn [Path].
    by rewrite TrimPrefix_app, Split_no_sep.
Qed.

Lemma answer_creation_reads_two_segments_witness :
  let w := {| store := one_question_store; faults := []; now := 3 |} in
  let post p := {| Method := "POST"; Path := p;
                   Body := Some (JObject [("text", JString "So")]) |} in
  questionsRoute (post "/questions/1/comments/answers") w
    = (http_Error "bad path" StatusBadRequest, w)
  ∧ questionsRoute (post "/questions/1/answers/2/answers") w
    = questionsRoute (post "/questions/1/answers") w.
Proof.
  intros w post.
  assert (H1 : no_slash "1") by (intros c [<-|[]]; discriminate).
  assert (Hc : no_slash "comments")
    by (intros c Hin; cbn in Hin; intuition (subst; discriminate)).
  assert (Ha : no_slash "answers")
    by (intros c Hin; cbn in Hin; intuition (subst; discriminate)).
  destruct (answer_creation_reads_two_segments "1" "comments" "answers"
              (Some (JObject [("text", JString "So")])) w H1 Hc)
    as (Hbad & _ & _).
  destruct (answer_creation_reads_two_segments "1" "answers" "2/answers"
              (Some (JObject [("text", JString "So")])) w H1 Ha)
    as (_ & Hsame & _).
  split; [apply Hbad; [reflexivity | discriminate]|].
  apply Hsame; reflexivity.
Defined.

(** X15: a by-id request depends on the path only through the integer
    [Atoi] reads from it.  Two spellings of one id (a sign, leading zeros)
    get the same response and leave the same world, for GET and DELETE on
    both prefixes and for answer creation. *)
Theorem id_spelling_is_irrelevant y1 y2 id body w :
  Atoi y1 = Some id → Atoi y2 = Some id →
  let q m y := {| Method := m; Path := "/questions/" +:+ y; Body := body |} in
  let a m y := {| Method := m; Path := "/answers/" +:+ y; Body := body |} in
  questionsRoute (q MethodGet y1) w = questionsRoute (q MethodGet y2) w
  ∧ questionsRoute (q MethodDelete y1) w = questionsRoute (q MethodDelete y2) w
  ∧ answersRoute (a MethodGet y1) w = answersRoute (a MethodGet y2) w
  ∧ answersRoute (a MethodDelete y1) w = answersRoute (a MethodDelete y2) w
  ∧ questionsRoute (q MethodPost (y1 +:+ "/answers")) w
    = questionsRoute (q MethodPost (y2 +:+ "/answers")) w.
Proof.
  intros H1 H2 q a.
  pose proof (Atoi_nonempty _ _ H1) as Hn1.
  pose proof (Atoi_nonempty _ _ H2) as Hn2.
  split; [|split; [|split; [|split]]].
  - unfold q, MethodGet. rewrite !questionsRoute_GET by done.
    unfold GetQuestionHandler. cbn [Path]. by rewrite !TrimPrefix_app, H1, H2.
  - unfold q, MethodDelete. rewrite !questionsRoute_DELETE.
    unfold DeleteQuestionHandler. cbn [Path].
    by rewrite !TrimPrefix_app, H1, H2.
  - unfold a, answersRoute.
    cbn [Method MethodGet String.eqb Ascii.eqb Bool.eqb].
    unfold GetAnswerHandler. cbn [Path]. by rewrite !TrimPrefix_app, H1, H2.
  - unfold a, answersRoute.
    cbn [Method MethodGet MethodDelete String.eqb Ascii.eqb Bool.eqb].
    unfold DeleteAnswerHandler. cbn [Path]. by rewrite !TrimPrefix_app, H1, H2.
  - unfold q.
    rewrite !questionsRoute_POST_answers by apply answers_path_suffix.
    unfold CreateAnswerHandler. cbn [Path].
    rewrite (CreateAnswer_path y1 id H1), (CreateAnswer_path y2 id H2).
    cbn [String.eqb Ascii.eqb Bool.eqb negb]. by rewrite H1, H2.
Qed.

Lemma id_spelling_is_irrelevant_witness :
  let w := {| store := one_question_store; faults := []; now := 3 |} in
  questionsRoute {| Method := "GET"; Path := "/questions/+1"; Body := None |} w
  = questionsRoute {| Method := "GET"; Path := "/questions/001"; Body := None |} w.
Proof.
  intros w.
  exact (proj1 (id_spelling_is_irrelevant "+1" "001" 1 None w eq_refl eq_refl)).
Defined.

Lemma Itoa_nonempty n : Itoa n ≠ EmptyString.
Proof.
  unfold Itoa. destruct (n <? 0); [done|].
  destruct (digits_of_head (Z.to_nat (Z.log2 n)) n EmptyString)
    as (d & r & _ & ->). done.
Qed.

(** The decimal text of an integer that does not fit [int] is refused. *)
Lemma Atoi_Itoa_out_of_range n :
  ¬ (minInt ≤ n ≤ maxInt) → Atoi (Itoa n) = None.
Proof.
  intros Hn. unfold Itoa. destruct (Z.ltb_spec n 0) as [Hneg|Hpos].
  - assert (Hm : 0 ≤ - n) by lia.
    pose proof (parse_digits_of _ (- n) EmptyString (fuel_enough _ Hm)) as Hp.
    destruct (digits_of_head (Z.to_nat (Z.log2 (- n))) (- n) EmptyString)
      as (d & r & Hd & Heq).
    rewrite Heq in Hp. unfold Atoi. rewrite Heq.
    change (Ascii.eqb "-" "-") with true. simpl orb. cbv iota.
    rewrite Hp. cbn [parse_digits]. rewrite Z.opp_involutive.
    unfold minInt, maxInt in *.
    destruct (Z.leb_spec (- 2 ^ 63) n); [|done].
    destruct (Z.leb_spec n (2 ^ 63 - 1)); [lia|done].
  - pose proof (parse_digits_of _ n EmptyString (fuel_enough n Hpos)) as Hp.
    destruct (digits_of_head (Z.to_nat (Z.log2 n)) n EmptyString)
      as (d & r & Hd & Heq).
    rewrite Heq in Hp |- *. unfold Atoi.
    destruct (digit_char_not_sign d Hd) as [-> ->]. simpl orb. cbv iota.
    rewrite Hp. cbn [parse_digits].
    unfold minInt, maxInt in *.
    destruct (Z.leb_spec (- 2 ^ 63) n); [|done].
    destruct (Z.leb_spec n (2 ^ 63 - 1)); [lia|done].
Qed.

(** X16: an id that does not fit [int] is a bad id, not a missing one: for
    every integer outside the range of [int], GET and DELETE on
    [/questions/{n}] and [/answers/{n}], with [n] in decimal, are answered
    400 "bad id" and issue no statement, while every integer inside the
    range is read back as itself. *)
Theorem out_of_range_id_400 n body w :
  ¬ (minInt ≤ n ≤ maxInt) →
  let bad := (http_Error "bad id" StatusBadRequest, w) in
  let q m := {| Method := m; Path := "/questions/" +:+ Itoa n; Body := body |} in
  let a m := {| Method := m; Path := "/answers/" +:+ Itoa n; Body := body |} in
  questionsRoute (q MethodGet) w = bad
  ∧ questionsRoute (q MethodDelete) w = bad
  ∧ answersRoute (a MethodGet) w = bad
  ∧ answersRoute (a MethodDelete) w = bad
  ∧ ∀ m, minInt ≤ m ≤ maxInt → Atoi (Itoa m) = Some m.
Proof.
  intros Hn bad q a.
  pose proof (Atoi_Itoa_out_of_range n Hn) as Hx.
  split; [|split; [|split; [|split]]].
  - unfold q, MethodGet. rewrite questionsRoute_GET by apply Itoa_nonempty.
    unfold GetQuestionHandler. cbn [Path]. by rewrite TrimPrefix_app, Hx.
  - unfold q, MethodDelete. rewrite questionsRoute_DELETE.
    unfold DeleteQuestionHandler. cbn [Path]. by rewrite TrimPrefix_app, Hx.
  - unfold a, answersRoute.
    cbn [Method MethodGet String.eqb Ascii.eqb Bool.eqb].
    unfold GetAnswerHandler. cbn [Path]. by rewrite TrimPrefix_app, Hx.
  - unfold a, answersRoute.
    cbn [Method MethodGet MethodDelete String.eqb Ascii.eqb Bool.eqb].
    unfold DeleteAnswerHandler. cbn [Path]. by rewrite TrimPrefix_app, Hx.
  - apply Atoi_Itoa.
Qed.

Lemma out_of_range_id_400_witness :
  let w := {| store := one_question_store; faults := []; now := 3 |} in
  questionsRoute {| Method := "GET"; Path := "/questions/9223372036854775808";
                    Body := None |} w
  = (http_Error "bad id" StatusBadRequest, w).
Proof.
  intros w.
  assert (Hn : ¬ (minInt ≤ 9223372036854775808 ≤ maxInt)).
  { unfold minInt, maxInt. lia. }
  exact (proj1 (out_of_range_id_400 9223372036854775808 None w Hn)).
Defined.

End Paths.

(** ** What the answers route and the repository never do *)

Section Never.

Implicit Types (r : Request) (w : World) (id : Z).

(** X17: no request under [/answers/] creates anything or touches a
    question: after it the questions table and both sequences are as
    before, and every answer in the store was there before. *)
Theorem answers_route_only_removes r w :
  let s := store w in
  let s' := store (answersRoute r w).2 in
  questions s' = questions s
  ∧ questions_id_seq s' = questions_id_seq s
  ∧ answers_id_seq s' = answers_id_seq s
  ∧ ∀ aid row, answers s' !! aid = Some row → answers s !! aid = Some row.
Proof.
  cbn zeta.
  destruct (answersRoute_cases r w) as [->|[-> | ->]].
  - by destruct (GetAnswerHandler_effect r w) as [-> _].
  - destruct (DeleteAnswerHandler_effect r w)
      as [[-> _]|(id & _ & _ & _ & -> & _)]; [done|].
    cbn. do 3 (split; [done|]).
    by intros aid row [_ Hrow]%lookup_delete_Some.
  - done.
Qed.

(** X18: when the repository says "not found" on a read.
    [GetQuestionWithAnswers], [GetAnswer] and [CreateAnswer] return
    [ErrRecordNotFound] exactly when their first statement goes through and
    finds no row with the id; [CreateAnswer] then has inserted nothing. *)
Theorem repository_not_found_on_read id (a : Answer.t) w :
  ((GetQuestionWithAnswers id w).1 = Err ErrRecordNotFound
   ↔ hd false (faults w) = false ∧ questions (store w) !! id = None)
  ∧ ((GetAnswer id w).1 = Err ErrRecordNotFound
     ↔ hd false (faults w) = false ∧ answers (store w) !! id = None)
  ∧ ((CreateAnswer a w).1.2 = Some ErrRecordNotFound
     ↔ hd false (faults w) = false
       ∧ questions (store w) !! Answer.QuestionID a = None)
  ∧ ((CreateAnswer a w).1.2 = Some ErrRecordNotFound
     → store (CreateAnswer a w).2 = store w).
Proof.
  split; [|split; [|split]].
  - db_unfold. destruct (hd false (faults w)); cbn; [by split; [|intros []]|].
    destruct (questions (store w) !! id) as [row|]; cbn; [|done].
    rewrite draw_fault_eq; cbn.
    destruct (hd false (tl (faults w))); cbn; by split; [|intros []].
  - db_unfold. destruct (hd false (faults w)); cbn; [by split; [|intros []]|].
    destruct (answers (store w) !! id) as [row|]; cbn; [|done].
    by split; [|intros []].
  - db_unfold. destruct (hd false (faults w)); cbn; [by split; [|intros []]|].
    destruct (questions (store w) !! Answer.QuestionID a) as [row|] eqn:Hq;
      cbn; [|done].
    rewrite draw_fault_eq; cbn.
    destruct (hd false (tl (faults w))); cbn; [by split; [|intros []]|].
    destruct (Answer.ID a =? 0).
    + destruct (maxInt <? answers_id_seq (store w) + 1); cbn;
        [by split; [|intros []]|].
      rewrite Hq.
      destruct (answers (store w) !! (answers_id_seq (store w) + 1)); cbn;
        by split; [|intros []].
    + rewrite Hq.
      destruct (answers (store w) !! Answer.ID a); cbn;
        by split; [|intros []].
  - db_unfold. destruct (hd false (faults w)); cbn; [done|].
    destruct (questions (store w) !! Answer.QuestionID a) as [row|] eqn:Hq;
      cbn; [|done].
    rewrite draw_fault_eq; cbn.
    destruct (hd false (tl (faults w))); cbn; [done|].
    destruct (Answer.ID a =? 0).
    + destruct (maxInt <? answers_id_seq (store w) + 1); cbn; [done|].
      rewrite Hq.
      destruct (answers (store w) !! (answers_id_seq (store w) + 1)); cbn;
        done.
    + rewrite Hq. destruct (answers (store w) !! Answer.ID a); cbn; done.
Qed.

End Never.

(** ** The model at work *)

Example Atoi_42 : Atoi "42" = Some 42.
Proof. reflexivity. Qed.

Example Atoi_plus : Atoi "+7" = Some 7.
Proof. reflexivity. Qed.

Example Atoi_leading_zeros : Atoi "-0012" = Some (-12).
Proof. reflexivity. Qed.

Example Atoi_empty : Atoi EmptyString = None.
Proof. reflexivity. Qed.

Example Atoi_sign_only : Atoi "-" = None.
Proof. reflexivity. Qed.

Example Atoi_trailing_letter : Atoi "12a" = None.
Proof. reflexivity. Qed.

Example Atoi_maxInt : Atoi "9223372036854775807" = Some maxInt.
Proof. reflexivity. Qed.

Example Atoi_out_of_range : Atoi "9223372036854775808" = None.
Proof. reflexivity. Qed.

Example Atoi_minInt : Atoi "-9223372036854775808" = Some minInt.
Proof. reflexivity. Qed.

Example Itoa_1234 : Itoa 1234 = "1234".
Proof. reflexivity. Qed.

Example Itoa_negative : Itoa (-70) = "-70".
Proof. reflexivity. Qed.

Example Split_answers_path : Split "12/answers" "/" = ["12"; "answers"].
Proof. reflexivity. Qed.

Example Split_no_separator : Split EmptyString "/" = [EmptyString].
Proof. reflexivity. Qed.

Example Split_empty_pieces : Split "a//b/" "/" = ["a"; EmptyString; "b"; EmptyString].
Proof. reflexivity. Qed.

Example TrimPrefix_id : TrimPrefix "/questions/5" "/questions/" = "5".
Proof. reflexivity. Qed.

Example TrimPrefix_absent : TrimPrefix "/questions" "/questions/" = "/questions".
Proof. reflexivity. Qed.

Example foldName_long_s : foldName "uſer_id" = "USER_ID".
Proof. reflexivity. Qed.

Example decode_mixed_case_key :
  Decode_QuestionReq (Some (JObject [("Text", JString "Why?")]))
  = Some {| qr_Text := "Why?" |}.
Proof. reflexivity. Qed.

Example decode_number_for_text :
  Decode_QuestionReq (Some (JObject [("text", JNumber "5")])) = None.
Proof. reflexivity. Qed.

(** The example of the specification: create a question, answer it, delete
    the question, fetch the answer. *)
Example create_answer_delete_fetch :
  (run initial_store
     [call QuestionsPattern "POST" "/questions/"
        (Some (JObject [("text", JString "Why?")])) [] 1;
      call QuestionsPattern "POST" "/questions/1/answers"
        (Some (JObject [("user_id", JString "u1");
                        ("text", JString "Because")])) [] 2;
      call QuestionsPattern "DELETE" "/questions/1" None [] 3;
      call AnswersPattern "GET" "/answers/1" None [] 4]).1
  = [{| status := 201; payload := OneQuestion (Question.mk 1 "Why?" 1 []) |};
     {| status := 201; payload := OneAnswer (Answer.mk 1 1 "u1" "Because" 2) |};
     {| status := 204; payload := Empty |};
     {| status := 404; payload := Message "not found" |}].
Proof. vm_compute. reflexivity. Qed.

(** An empty remainder under GET on [/questions/] lists; under DELETE, and
    under [/answers/], it is a bad id. *)
Example empty_remainder :
  let w := {| store := initial_store; faults := []; now := 1 |} in
  let r m p := {| Method := m; Path := p; Body := None |} in
  status (questionsRoute (r "GET" "/questions/") w).1 = 200
  ∧ status (questionsRoute (r "DELETE" "/questions/") w).1 = 400
  ∧ status (answersRoute (r "GET" "/answers/") w).1 = 400
  ∧ status (answersRoute (r "DELETE" "/answers/") w).1 = 400.
Proof. vm_compute. done. Qed.
